(** * Byte-Watt battery integration: the polling client, its signature,
      its retry loop and the derived sensor readings.

    Source files embedded here (homeassistant/components/byte_watt_battery):
    - helpers.py          ([generate_auth_signature])
    - battery_monitor.py  ([authenticate], [fetch_battery_data], [get_battery_data])
    - coordinator.py      ([_async_update_data])
    - sensor.py           ([get_power_value], the sensor formulas, [native_value]) *)

From Stdlib Require Import ZArith List String Ascii Bool Lia.
From Stdlib Require Import DecimalString.
From Stdlib Require DecimalZ DecimalPos.
From Corelib Require Import PrimFloat SpecFloat FloatOps FloatAxioms.
From stdpp Require Import gmap strings.
Import ListNotations.

Set Warnings "-register-all".
Set Default Proof Using "Type".

(** ** hashlib.sha512

    [helpers.py] hashes with the interpreter's [hashlib.sha512].  The digest is
    SHA-512 of FIPS 180-4, written here on 64-bit words held in [Z] with the
    wrap-around spelled out. *)
Module SHA512.
Local Open Scope Z_scope.

Definition mask64 : Z := 0xffffffffffffffff.
Definition w64 (x : Z) : Z := x mod 2 ^ 64.
Definition add64 (a b : Z) : Z := w64 (a + b).
Definition not64 (x : Z) : Z := Z.lxor x mask64.
Definition rotr (n x : Z) : Z := Z.lor (Z.shiftr x n) (w64 (Z.shiftl x (64 - n))).

Definition Ch (e f g : Z) : Z := Z.lxor (Z.land e f) (Z.land (not64 e) g).
Definition Maj (a b c : Z) : Z :=
  Z.lxor (Z.lxor (Z.land a b) (Z.land a c)) (Z.land b c).
Definition Sigma0 (a : Z) : Z := Z.lxor (Z.lxor (rotr 28 a) (rotr 34 a)) (rotr 39 a).
Definition Sigma1 (e : Z) : Z := Z.lxor (Z.lxor (rotr 14 e) (rotr 18 e)) (rotr 41 e).
Definition sigma0 (x : Z) : Z := Z.lxor (Z.lxor (rotr 1 x) (rotr 8 x)) (Z.shiftr x 7).
Definition sigma1 (x : Z) : Z := Z.lxor (Z.lxor (rotr 19 x) (rotr 61 x)) (Z.shiftr x 6).

Definition K : list Z :=
  [ 0x428a2f98d728ae22; 0x7137449123ef65cd; 0xb5c0fbcfec4d3b2f; 0xe9b5dba58189dbbc;
    0x3956c25bf348b538; 0x59f111f1b605d019; 0x923f82a4af194f9b; 0xab1c5ed5da6d8118;
    0xd807aa98a3030242; 0x12835b0145706fbe; 0x243185be4ee4b28c; 0x550c7dc3d5ffb4e2;
    0x72be5d74f27b896f; 0x80deb1fe3b1696b1; 0x9bdc06a725c71235; 0xc19bf174cf692694;
    0xe49b69c19ef14ad2; 0xefbe4786384f25e3; 0x0fc19dc68b8cd5b5; 0x240ca1cc77ac9c65;
    0x2de92c6f592b0275; 0x4a7484aa6ea6e483; 0x5cb0a9dcbd41fbd4; 0x76f988da831153b5;
    0x983e5152ee66dfab; 0xa831c66d2db43210; 0xb00327c898fb213f; 0xbf597fc7beef0ee4;
    0xc6e00bf33da88fc2; 0xd5a79147930aa725; 0x06ca6351e003826f; 0x142929670a0e6e70;
    0x27b70a8546d22ffc; 0x2e1b21385c26c926; 0x4d2c6dfc5ac42aed; 0x53380d139d95b3df;
    0x650a73548baf63de; 0x766a0abb3c77b2a8; 0x81c2c92e47edaee6; 0x92722c851482353b;
    0xa2bfe8a14cf10364; 0xa81a664bbc423001; 0xc24b8b70d0f89791; 0xc76c51a30654be30;
    0xd192e819d6ef5218; 0xd69906245565a910; 0xf40e35855771202a; 0x106aa07032bbd1b8;
    0x19a4c116b8d2d0c8; 0x1e376c085141ab53; 0x2748774cdf8eeb99; 0x34b0bcb5e19b48a8;
    0x391c0cb3c5c95a63; 0x4ed8aa4ae3418acb; 0x5b9cca4f7763e373; 0x682e6ff3d6b2b8a3;
    0x748f82ee5defb2fc; 0x78a5636f43172f60; 0x84c87814a1f0ab72; 0x8cc702081a6439ec;
    0x90befffa23631e28; 0xa4506cebde82bde9; 0xbef9a3f7b2c67915; 0xc67178f2e372532b;
    0xca273eceea26619c; 0xd186b8c721c0c207; 0xeada7dd6cde0eb1e; 0xf57d4f7fee6ed178;
    0x06f067aa72176fba; 0x0a637dc5a2c898a6; 0x113f9804bef90dae; 0x1b710b35131c471b;
    0x28db77f523047d84; 0x32caab7b40c72493; 0x3c9ebe0a15c9bebc; 0x431d67c49c100d4c;
    0x4cc5d4becb3e42b6; 0x597f299cfc657e2a; 0x5fcb6fab3ad6faec; 0x6c44198c4a475817 ].

(** The eight working words [a..h]; also the chaining value between blocks. *)
Record regs := Regs { ra : Z; rb : Z; rc : Z; rd : Z; re : Z; rf : Z; rg : Z; rh : Z }.

Definition H0 : regs :=
  Regs 0x6a09e667f3bcc908 0xbb67ae8584caa73b 0x3c6ef372fe94f82b 0xa54ff53a5f1d36f1
       0x510e527fade682d1 0x9b05688c2b3e6c1f 0x1f83d9abfb41bd6b 0x5be0cd19137e2179.

(** Padding: a [0x80] byte, zeros up to 112 mod 128, the bit length on 16 bytes. *)
Definition be_bytes (n : nat) (x : Z) : list Z :=
  map (fun i => Z.shiftr x (8 * Z.of_nat i) mod 256) (rev (seq 0 n)).

Definition pad (msg : list Z) : list Z :=
  let len := Z.of_nat (length msg) in
  msg ++ [0x80] ++ repeat 0 (Z.to_nat ((111 - len) mod 128)) ++ be_bytes 16 (8 * len).

Fixpoint chunks (fuel : nat) (l : list Z) : list (list Z) :=
  match fuel, l with
  | O, _ | _, [] => []
  | S fuel', _ => firstn 128 l :: chunks fuel' (skipn 128 l)
  end.

Definition be_word (bs : list Z) : Z := fold_left (fun acc b => acc * 256 + b) bs 0.

Fixpoint words (n : nat) (block : list Z) : list Z :=
  match n with
  | O => []
  | S n' => be_word (firstn 8 block) :: words n' (skipn 8 block)
  end.

(** Message schedule: sixteen block words extended to eighty. *)
Fixpoint extend (n : nat) (w : list Z) : list Z :=
  match n with
  | O => w
  | S n' =>
      let i := length w in
      let at_ k := nth (i - k) w 0 in
      extend n' (w ++ [w64 (at_ 16%nat + sigma0 (at_ 15%nat) + at_ 7%nat + sigma1 (at_ 2%nat))])
  end.

Definition schedule (block : list Z) : list Z := extend 64 (words 16 block).

Definition round (r : regs) (kw : Z * Z) : regs :=
  let '(k, w) := kw in
  let t1 := w64 (rh r + Sigma1 (re r) + Ch (re r) (rf r) (rg r) + k + w) in
  let t2 := w64 (Sigma0 (ra r) + Maj (ra r) (rb r) (rc r)) in
  Regs (add64 t1 t2) (ra r) (rb r) (rc r) (add64 (rd r) t1) (re r) (rf r) (rg r).

Definition compress (h : regs) (block : list Z) : regs :=
  let r := fold_left round (combine K (schedule block)) h in
  Regs (add64 (ra h) (ra r)) (add64 (rb h) (rb r)) (add64 (rc h) (rc r))
       (add64 (rd h) (rd r)) (add64 (re h) (re r)) (add64 (rf h) (rf r))
       (add64 (rg h) (rg r)) (add64 (rh h) (rh r)).

Definition regs_bytes (r : regs) : list Z :=
  flat_map (be_bytes 8) [ra r; rb r; rc r; rd r; re r; rf r; rg r; rh r].

(** [hashlib.sha512(msg).digest()] *)
Definition digest (msg : list Z) : list Z :=
  let p := pad msg in
  regs_bytes (fold_left compress (chunks (length p) p) H0).

Definition hex_digit (d : Z) : ascii :=
  match String.get (Z.to_nat d) "0123456789abcdef" with
  | Some c => c
  | None => "0"%char
  end.

Fixpoint hex (bs : list Z) : string :=
  match bs with
  | [] => EmptyString
  | b :: bs' => String (hex_digit (b / 16)) (String (hex_digit (b mod 16)) (hex bs'))
  end.

(** [hashlib.sha512(msg).hexdigest()] *)
Definition hexdigest (msg : list Z) : string := hex (digest msg).

End SHA512.

(** ** helpers.py *)

(** [str.encode()]: UTF-8.  A [string] is kept as its sequence of code points
    below 256; on ASCII text, the only text hashed here, UTF-8 is the
    identity on code points. *)
Definition encode (s : string) : list Z :=
  map (fun c => Z.of_N (N_of_ascii c)) (list_ascii_of_string s).

(** [str(n)] on an [int]. *)
Definition py_str_int (n : Z) : string := NilZero.string_of_int (Z.to_int n).

(** [generate_auth_timestamp] returns [int(time.time())]; [clock] is the whole
    number of seconds the wall clock shows when it is called. *)
Definition generate_auth_timestamp (clock : Z) : Z := clock.

Definition generate_auth_signature (timestamp : Z) : string :=
  let r := "LS885ZYDA95JV" in
  let a := "FQKUIUUUV7PQNODZ" in
  let A := "RDZIS4ERRED" in
  let i := "S0EED8BCWSS" in
  let auth_string := r +:+ a +:+ A +:+ i +:+ py_str_int timestamp in
  let hash_hex := SHA512.hexdigest (encode auth_string) in
  "al8e4s" +:+ hash_hex +:+ "ui893ed".

(** The signature as the specification words it: the fixed prefix, the
    lowercase hex SHA-512 digest of the four secrets followed by the decimal
    timestamp, the fixed suffix. *)
Definition secrets : list string :=
  ["LS885ZYDA95JV"; "FQKUIUUUV7PQNODZ"; "RDZIS4ERRED"; "S0EED8BCWSS"].

Definition computeSignature_spec (t : Z) : string :=
  "al8e4s" +:+
  SHA512.hex (SHA512.digest (encode (String.concat "" secrets +:+ py_str_int t))) +:+
  "ui893ed".

Definition is_lower_hex (c : ascii) : bool :=
  let n := N_of_ascii c in
  ((48 <=? n) && (n <=? 57) || (97 <=? n) && (n <=? 102))%N.

Definition is_ascii (c : ascii) : bool := (N_of_ascii c <? 128)%N.

(** ** Python values

    What [response.json()] yields, and what the snapshot [dict[str, Any]]
    holds: [None], [bool], [int], [float] (IEEE binary64), [str], [list] and
    [dict] with string keys. *)
Inductive json :=
| JNull
| JBool (b : bool)
| JInt (z : Z)
| JFloat (f : float)
| JStr (s : string)
| JList (l : list json)
| JObj (m : gmap string json).

(** The exceptions the integration raises or lets through. [UpdateFailed msg
    cause] is [raise UpdateFailed(msg) from cause]. *)
Inductive exn :=
| UpdateFailed (msg : string) (cause : option exn)
| ClientError            (* aiohttp transport failure or the 5 s timeout *)
| DecodeError            (* response.json() on a body that is not JSON *)
| KeyError (key : string)
| TypeError
| AttributeError
| ValueError
| OverflowError.

Inductive result (A : Type) :=
| Ok (a : A)
| Raise (e : exn).
Arguments Ok {A} a.
Arguments Raise {A} e.

(** [bool(v)] *)
Definition truthy (v : json) : bool :=
  match v with
  | JNull => false
  | JBool b => b
  | JInt z => negb (z =? 0)%Z
  | JFloat f => negb (PrimFloat.eqb f 0%float)
  | JStr s => negb (String.eqb s "")
  | JList l => match l with [] => false | _ => true end
  | JObj m => negb (bool_decide (size m = 0))
  end.

(** [v is not None] *)
Definition is_not_none (v : json) : bool :=
  match v with JNull => false | _ => true end.

(** [v[key]] for a string key. *)
Definition subscript (v : json) (key : string) : result json :=
  match v with
  | JObj m => match m !! key with Some x => Ok x | None => Raise (KeyError key) end
  | _ => Raise TypeError
  end.

(** [v.get(key)]: only a [dict] has the method. *)
Definition py_get (v : json) (key : string) : result json :=
  match v with
  | JObj m => Ok (default JNull (m !! key))
  | _ => Raise AttributeError
  end.

(** [v == 9007] *)
Definition eq_9007 (v : json) : bool :=
  match v with
  | JInt z => (z =? 9007)%Z
  | JFloat f => PrimFloat.eqb f 9007%float
  | _ => false
  end.

(** ** battery_monitor.py *)

Definition REQUEST_TIMEOUT : Z := 5.
Definition MAX_RETRIES : Z := 3.
Definition RETRY_DELAY : Z := 2.

(** The attributes of a [ByteWattBatteryMonitor] ([hass] and [session] are the
    network below). *)
Record ByteWattBatteryMonitor := Monitor {
  username : string;
  password : string;
  scan_interval : Z;
  auth_timestamp : Z;
  auth_signature : string;
  access_token : json;
}.

(** [ByteWattBatteryMonitor.__init__]; [clock] is the clock reading that
    [generate_auth_timestamp] sees. *)
Definition __init__ (clock : Z) (username password : string) (scan_interval : Z)
    : ByteWattBatteryMonitor :=
  let auth_timestamp := generate_auth_timestamp clock in
  {| username := username;
     password := password;
     scan_interval := scan_interval;
     auth_timestamp := auth_timestamp;
     auth_signature := generate_auth_signature auth_timestamp;
     access_token := JNull |}.

(** A header value: a string, or the f-string [f"Bearer {token}"] kept with
    the token it formats. *)
Inductive hval :=
| Str (s : string)
| Bearer (token : json).

(** What the server side does to one request: the transport fails (no
    connection, the timeout expires), or a response arrives with a status and
    a body; [body = None] is a body that [response.json()] cannot decode. *)
Inductive http_result :=
| Transport_error
| Response (status : Z) (body : option json).

Inductive event :=
| Post (url : string) (params : gmap string json) (headers : gmap string hval)
       (payload : gmap string json) (timeout : Z)
| Get (url : string) (params : gmap string json) (headers : gmap string hval)
      (timeout : Z)
| Sleep (seconds : Z).

(** The state a call runs in: the monitor object, the answers the network
    will give to the next requests (none left: the request times out), the
    [headers] dict that [get_battery_data] allocates and hands by reference to
    [fetch_battery_data], and the requests and sleeps performed so far. *)
Record state := State {
  self : ByteWattBatteryMonitor;
  net : list http_result;
  headers_obj : gmap string hval;
  log : list event;
}.

Definition M (A : Type) : Type := state -> result A * state.

Definition ret {A} (a : A) : M A := fun s => (Ok a, s).
Definition raise {A} (e : exn) : M A := fun s => (Raise e, s).
Definition bind {A B} (m : M A) (k : A -> M B) : M B :=
  fun s => match m s with
           | (Ok a, s') => k a s'
           | (Raise e, s') => (Raise e, s')
           end.
Definition try_except {A} (m : M A) (handler : exn -> M A) : M A :=
  fun s => match m s with
           | (Ok a, s') => (Ok a, s')
           | (Raise e, s') => handler e s'
           end.
Definition lift {A} (r : result A) : M A := fun s => (r, s).

Notation "'let!' x ':=' m 'in' k" := (bind m (fun x => k))
  (at level 10, x pattern, m at level 100, k at level 200).
Notation "m1 ';;' m2" := (bind m1 (fun _ => m2))
  (at level 100, right associativity).

Definition get_self : M ByteWattBatteryMonitor := fun s => (Ok (self s), s).
Definition set_access_token (tok : json) : M unit :=
  fun s =>
    let c := self s in
    (Ok tt, State (Monitor (username c) (password c) (scan_interval c)
                           (auth_timestamp c) (auth_signature c) tok)
                  (net s) (headers_obj s) (log s)).
Definition get_headers : M (gmap string hval) := fun s => (Ok (headers_obj s), s).
Definition set_headers (h : gmap string hval) : M unit :=
  fun s => (Ok tt, State (self s) (net s) h (log s)).
Definition emit (e : event) : M unit :=
  fun s => (Ok tt, State (self s) (net s) (headers_obj s) (log s ++ [e])).

(** One request on the session: the next answer of the network. *)
Definition request (e : event) : M (Z * option json) :=
  emit e ;;
  fun s =>
    match net s with
    | [] => (Raise ClientError, s)
    | r :: rest =>
        let s' := State (self s) rest (headers_obj s) (log s) in
        match r with
        | Transport_error => (Raise ClientError, s')
        | Response status body => (Ok (status, body), s')
        end
    end.

(** [await response.json()] *)
Definition response_json (body : option json) : M json :=
  match body with
  | Some v => ret v
  | None => raise DecodeError
  end.

(** [asyncio.sleep(seconds)] *)
Definition sleep (seconds : Z) : M unit := emit (Sleep seconds).

Definition post_json_and_fetch_response
    (url : string) (params : gmap string json) (headers : gmap string hval)
    (payload : gmap string json) : M json :=
  let timeout := REQUEST_TIMEOUT in
  let! response := request (Post url params headers payload timeout) in
  response_json (snd response).

Definition login_url : string := "https://monitor.byte-watt.com/api/Account/Login".

Definition authenticate : M unit :=
  let! self := get_self in
  let url := login_url in
  let params : gmap string json :=
    {[ "authsignature" := JStr (auth_signature self);
       "authtimestamp" := JInt (auth_timestamp self) ]} in
  let headers : gmap string hval := {[ "Content-Type" := Str "application/json" ]} in
  let payload : gmap string json :=
    {[ "username" := JStr (username self); "password" := JStr (password self) ]} in
  try_except
    (let! data := post_json_and_fetch_response url params headers payload in
     let! d := lift (subscript data "data") in
     let! token := lift (subscript d "AccessToken") in
     set_access_token token)
    (fun err => raise (UpdateFailed "Error authenticating with Byte Watt API" (Some err))).

Definition fetch_battery_data (url : string) (params : gmap string json) : M json :=
  let timeout := REQUEST_TIMEOUT in
  let! headers := get_headers in
  let! response := request (Get url params headers timeout) in
  if (fst response =? 401)%Z then
    authenticate ;;
    let! self := get_self in
    let! headers := get_headers in
    set_headers (<["Authorization" := Bearer (access_token self)]> headers) ;;
    ret (JObj ∅)
  else
    let! data := response_json (snd response) in
    let! code := lift (py_get data "code") in
    if eq_9007 code then
      raise (UpdateFailed "Network error code 9007 from Byte Watt API" None)
    else
      match data with
      | JObj m =>
          match m !! "data" with
          | Some (JObj d) =>
              if bool_decide (0 < size d) then ret (JObj d)
              else raise (UpdateFailed "Unexpected data format from Byte Watt API" None)
          | _ => raise (UpdateFailed "Unexpected data format from Byte Watt API" None)
          end
      | _ => raise (UpdateFailed "Unexpected data format from Byte Watt API" None)
      end.

Definition data_url : string :=
  "https://monitor.byte-watt.com/api/ESS/GetLastPowerDataBySN".
Definition data_params : gmap string json :=
  {[ "sys_sn" := JStr "All"; "noLoading" := JStr "true" ]}.

(** The body of [for attempt in range(MAX_RETRIES)], over the attempts left. *)
Fixpoint retry_loop (attempts : list Z) : M json :=
  match attempts with
  | [] => ret (JObj ∅)
  | attempt :: rest =>
      fun s =>
        match fetch_battery_data data_url data_params s with
        | (Ok data, s') =>
            if is_not_none data then (Ok data, s') else retry_loop rest s'
        | (Raise (UpdateFailed msg cause), s') =>
            if (attempt <? MAX_RETRIES - 1)%Z
            then (sleep RETRY_DELAY ;; retry_loop rest) s'
            else (Raise (UpdateFailed msg cause), s')
        | (Raise err, s') =>
            if (attempt <? MAX_RETRIES - 1)%Z
            then (sleep RETRY_DELAY ;; retry_loop rest) s'
            else (Raise (UpdateFailed "Error fetching data from Byte Watt API" (Some err)), s')
        end
  end.

(** [range(n)] *)
Definition range (n : Z) : list Z := map Z.of_nat (seq 0 (Z.to_nat n)).

Definition get_battery_data : M json :=
  let! self := get_self in
  (if negb (truthy (access_token self)) then authenticate else ret tt) ;;
  let! self := get_self in
  let headers : gmap string hval :=
    {[ "Content-Type" := Str "application/json";
       "authtimestamp" := Str (py_str_int (auth_timestamp self));
       "authsignature" := Str (auth_signature self);
       "Authorization" := Bearer (access_token self) ]} in
  set_headers headers ;;
  retry_loop (range MAX_RETRIES).

(** ** coordinator.py *)

(** [ByteWattDataUpdateCoordinator._async_update_data]; [str(err)] of an
    [UpdateFailed] is its message. *)
Definition _async_update_data : M json :=
  try_except get_battery_data
    (fun err =>
       match err with
       | UpdateFailed msg _ =>
           raise (UpdateFailed ("Error communicating with API: " +:+ msg) (Some err))
       | _ => raise err
       end).

(** Modelled from the spec: the refresh scheduler of sections 4.3 and 5.  The
    class [DataUpdateCoordinator] that [ByteWattDataUpdateCoordinator] extends
    (homeassistant/helpers/update_coordinator.py) is not among the source
    files; only the override [_async_update_data] above is.  The scheduler is
    a machine stepped by the two things that can happen under cooperative
    scheduling: a caller asks for a refresh, or the fetch in flight finishes.
    A request that finds a fetch in flight joins it; otherwise it starts the
    one fetch, a call of [_async_update_data] on the monitor. *)
Module RefreshScheduler.

Record refresh_state := RefreshState {
  lastSnapshot : option json;
  lastError : option exn;
}.

Record scheduler := Scheduler {
  client : state;                              (* the monitor and its network *)
  in_flight : option (result json * list nat); (* outcome awaited, callers joined *)
  cache : refresh_state;
  fetches : nat;                               (* fetches started so far *)
  delivered : list (nat * result json);        (* what each caller received *)
}.

Inductive action :=
| RefreshNow (caller : nat)
| FetchDone.

Definition step (sch : scheduler) (a : action) : scheduler :=
  match a, in_flight sch with
  | RefreshNow c, Some (r, waiting) =>
      Scheduler (client sch) (Some (r, waiting ++ [c])) (cache sch)
                (fetches sch) (delivered sch)
  | RefreshNow c, None =>
      let '(r, client') := _async_update_data (client sch) in
      Scheduler client' (Some (r, [c])) (cache sch) (S (fetches sch)) (delivered sch)
  | FetchDone, Some (r, waiting) =>
      let cache' :=
        match r with
        | Ok snapshot => RefreshState (Some snapshot) None
        | Raise e => RefreshState (lastSnapshot (cache sch)) (Some e)
        end in
      Scheduler (client sch) None cache' (fetches sch)
                (delivered sch ++ map (fun c => (c, r)) waiting)
  | FetchDone, None => sch
  end.

Definition run (sch : scheduler) (actions : list action) : scheduler :=
  fold_left step actions sch.

(** [currentSnapshot()] *)
Definition currentSnapshot (sch : scheduler) : option json := lastSnapshot (cache sch).

End RefreshScheduler.

(** ** sensor.py *)

(** [float(z)] on an [int]: the nearest binary64, ties to even;
    [OverflowError] when that is beyond the largest finite float. *)
Definition float_of_int (z : Z) : result float :=
  match binary_normalize 53 1024 z 0 false with
  | S754_infinity _ => Raise OverflowError
  | sf => Ok (SF2Prim sf)
  end.

(** A Python number, as the formulas produce them. *)
Inductive num :=
| NInt (z : Z)
| NFloat (f : float).

Definition json_of_num (n : num) : json :=
  match n with NInt z => JInt z | NFloat f => JFloat f end.

(** [min(x, 0)]: the first argument unless [0 < x]. *)
Definition min0 (x : num) : num :=
  match x with
  | NInt z => if (0 <? z)%Z then NInt 0 else x
  | NFloat f => if PrimFloat.ltb 0%float f then NInt 0 else x
  end.

(** [max(x, 0)]: the first argument unless [0 > x]. *)
Definition max0 (x : num) : num :=
  match x with
  | NInt z => if (z <? 0)%Z then NInt 0 else x
  | NFloat f => if PrimFloat.ltb f 0%float then NInt 0 else x
  end.

(** [abs(x)] *)
Definition py_abs (x : num) : num :=
  match x with
  | NInt z => NInt (Z.abs z)
  | NFloat f => NFloat (PrimFloat.abs f)
  end.

(** [sum(items)] over floats: the start value is the int [0], and [0 + f] is
    [0.0 + f]; the items are added from left to right.  (CPython from 3.12 on
    also compensates the rounding error of float sums; sums that are exact,
    as in the scenarios below, are the same either way.) *)
Definition sum_floats (items : list float) : num :=
  match items with
  | [] => NInt 0
  | f :: rest => NFloat (fold_left PrimFloat.add rest (PrimFloat.add 0%float f))
  end.

(** The items of a generator, drawn in order until one raises. *)
Fixpoint collect {A} (items : list (result A)) : result (list A) :=
  match items with
  | [] => Ok []
  | Ok a :: rest =>
      match collect rest with
      | Ok l => Ok (a :: l)
      | Raise e => Raise e
      end
  | Raise e :: _ => Raise e
  end.

Definition result_map {A B} (f : A -> B) (r : result A) : result B :=
  match r with Ok a => Ok (f a) | Raise e => Raise e end.

Section Sensor.

(** [float(s)] on a [str]: the interpreter's numeral parser, which is no
    part of the integration. *)
Variable float_of_str : string -> result float.

(** [float(value)] *)
Definition py_float (value : json) : result float :=
  match value with
  | JFloat f => Ok f
  | JInt z => float_of_int z
  | JBool b => Ok (if b then 1%float else 0%float)
  | JStr s => float_of_str s
  | JNull | JList _ | JObj _ => Raise TypeError
  end.

Definition get_power_value (data : gmap string json) (key : string) : result float :=
  let value := default JNull (data !! key) in
  if is_not_none value then py_float value else Ok 0%float.

(** [sum(get_power_value(data, f"{prefix}{i}") for i in range(lo, hi))] *)
Definition sum_fields (data : gmap string json) (prefix : string) (lo hi : Z) : result num :=
  result_map sum_floats
    (collect (map (fun i => get_power_value data (prefix +:+ py_str_int i))
                  (map (Z.add lo) (range (hi - lo))))).

Definition formula : Type := gmap string json -> result json.

(** [lambda data: data.get(key)] *)
Definition field (key : string) : formula :=
  fun data => Ok (default JNull (data !! key)).

(** [lambda data: abs(min(get_power_value(data, key), 0))] *)
Definition clamp_negative (key : string) : formula :=
  fun data =>
    result_map (fun x => json_of_num (py_abs (min0 (NFloat x)))) (get_power_value data key).

(** [lambda data: max(get_power_value(data, key), 0)] *)
Definition clamp_positive (key : string) : formula :=
  fun data => result_map (fun x => json_of_num (max0 (NFloat x))) (get_power_value data key).

Definition state_of_charge : formula := field "soc".
Definition battery_charging : formula := clamp_negative "pbat".
Definition battery_discharging : formula :=
  fun data => result_map (fun s => json_of_num (max0 s)) (sum_fields data "preal_l" 1 4).
Definition pv_generation : formula :=
  fun data => result_map json_of_num (sum_fields data "ppv" 1 5).
Definition grid_feed_in : formula :=
  fun data =>
    result_map (fun s => json_of_num (py_abs (min0 s))) (sum_fields data "pmeter_l" 1 4).
Definition grid_consumption : formula :=
  fun data => result_map (fun s => json_of_num (max0 s)) (sum_fields data "pmeter_l" 1 4).

(** The sensors [async_setup_entry] creates, by name, in its order. *)
Definition sensors : list (string * formula) :=
  [ ("State of Charge", state_of_charge);
    ("Grid Phase 1 Feed-In", clamp_negative "pmeter_l1");
    ("Grid Phase 1 Consumption", clamp_positive "pmeter_l1");
    ("Grid Phase 2 Feed-In", clamp_negative "pmeter_l2");
    ("Grid Phase 2 Consumption", clamp_positive "pmeter_l2");
    ("Grid Phase 3 Feed-In", clamp_negative "pmeter_l3");
    ("Grid Phase 3 Consumption", clamp_positive "pmeter_l3");
    ("Battery Charging", battery_charging);
    ("MPPT Tracker String 1", field "ppv1");
    ("MPPT Tracker String 2", field "ppv2");
    ("MPPT Tracker String 3", field "ppv3");
    ("MPPT Tracker String 4", field "ppv4");
    ("Battery Phase 1 Discharging", field "preal_l1");
    ("Battery Phase 2 Discharging", field "preal_l2");
    ("Battery Phase 3 Discharging", field "preal_l3");
    ("Battery Discharging", battery_discharging);
    ("PV Generation", pv_generation);
    ("Grid Feed-In", grid_feed_in);
    ("Grid Consumption", grid_consumption) ].

(** The readings built on [get_power_value]. *)
Definition derived : list (string * formula) :=
  [ ("Grid Phase 1 Feed-In", clamp_negative "pmeter_l1");
    ("Grid Phase 1 Consumption", clamp_positive "pmeter_l1");
    ("Grid Phase 2 Feed-In", clamp_negative "pmeter_l2");
    ("Grid Phase 2 Consumption", clamp_positive "pmeter_l2");
    ("Grid Phase 3 Feed-In", clamp_negative "pmeter_l3");
    ("Grid Phase 3 Consumption", clamp_positive "pmeter_l3");
    ("Battery Charging", battery_charging);
    ("Battery Discharging", battery_discharging);
    ("PV Generation", pv_generation);
    ("Grid Feed-In", grid_feed_in);
    ("Grid Consumption", grid_consumption) ].

(** [BatterySensor.native_value], on the coordinator's [data]. *)
Definition native_value (f : formula) (coordinator_data : json) : result json :=
  if truthy coordinator_data then
    match coordinator_data with
    | JObj data => f data
    | _ => Raise AttributeError
    end
  else Ok JNull.

End Sensor.

(** ** Vocabulary of the statements *)

(** [body["data"]["AccessToken"]] *)
Definition login_token (body : json) : result json :=
  match subscript body "data" with
  | Ok d => subscript d "AccessToken"
  | Raise e => Raise e
  end.

(** The monitor with its token replaced and nothing else. *)
Definition with_token (c : ByteWattBatteryMonitor) (tok : json) : ByteWattBatteryMonitor :=
  Monitor (username c) (password c) (scan_interval c)
          (auth_timestamp c) (auth_signature c) tok.

(** The login request of monitor [c]. *)
Definition login_request (c : ByteWattBatteryMonitor) : event :=
  Post login_url
       {[ "authsignature" := JStr (auth_signature c);
          "authtimestamp" := JInt (auth_timestamp c) ]}
       {[ "Content-Type" := Str "application/json" ]}
       {[ "username" := JStr (username c); "password" := JStr (password c) ]}
       REQUEST_TIMEOUT.

(** The headers [get_battery_data] builds for monitor [c]. *)
Definition standard_headers (c : ByteWattBatteryMonitor) : gmap string hval :=
  {[ "Content-Type" := Str "application/json";
     "authtimestamp" := Str (py_str_int (auth_timestamp c));
     "authsignature" := Str (auth_signature c);
     "Authorization" := Bearer (access_token c) ]}.

(** The telemetry request carrying headers [h]. *)
Definition data_request (h : gmap string hval) : event :=
  Get data_url data_params h REQUEST_TIMEOUT.

(** The state once request [e] went out and its answer was taken. *)
Definition after_request (s : state) (e : event) : state :=
  State (self s) (tl (net s)) (headers_obj s) (log s ++ [e]).

Definition transient_error : exn :=
  UpdateFailed "Network error code 9007 from Byte Watt API" None.
Definition format_error : exn :=
  UpdateFailed "Unexpected data format from Byte Watt API" None.
Definition auth_error (cause : exn) : exn :=
  UpdateFailed "Error authenticating with Byte Watt API" (Some cause).

(** How a decoded JSON object is classified, in the order of the checks. *)
Inductive body_class :=
| Transient
| Snapshot (d : gmap string json)
| Malformed.

Definition classify (m : gmap string json) : body_class :=
  if eq_9007 (default JNull (m !! "code")) then Transient
  else match m !! "data" with
       | Some (JObj d) => if bool_decide (0 < size d) then Snapshot d else Malformed
       | _ => Malformed
       end.

Definition class_result (c : body_class) : result json :=
  match c with
  | Transient => Raise transient_error
  | Snapshot d => Ok (JObj d)
  | Malformed => Raise format_error
  end.

(** What one attempt makes of an answer that is not a 401. *)
Definition attempt_result (body : option json) : result json :=
  match body with
  | None => Raise DecodeError
  | Some (JObj m) => class_result (classify m)
  | Some _ => Raise AttributeError
  end.

Definition is_get (e : event) : bool :=
  match e with Get _ _ _ _ => true | _ => false end.

(** Request [e] carries the signature and timestamp of monitor [c]. *)
Definition uses_credentials_of (c : ByteWattBatteryMonitor) (e : event) : Prop :=
  match e with
  | Post _ params _ payload _ =>
      params !! "authsignature" = Some (JStr (auth_signature c))
      ∧ params !! "authtimestamp" = Some (JInt (auth_timestamp c))
      ∧ payload !! "username" = Some (JStr (username c))
      ∧ payload !! "password" = Some (JStr (password c))
  | Get _ _ headers _ =>
      headers !! "authsignature" = Some (Str (auth_signature c))
      ∧ headers !! "authtimestamp" = Some (Str (py_str_int (auth_timestamp c)))
  | Sleep _ => True
  end.

(** Two monitors that differ at most in their token. *)
Definition same_identity (c c' : ByteWattBatteryMonitor) : Prop :=
  username c' = username c ∧ password c' = password c
  ∧ scan_interval c' = scan_interval c
  ∧ auth_timestamp c' = auth_timestamp c ∧ auth_signature c' = auth_signature c.

(** What the retry loop raises on its last attempt for an error [e] of the
    attempt: an [UpdateFailed] as it is, anything else wrapped. *)
Definition surfaced (e : exn) : exn :=
  match e with
  | UpdateFailed _ _ => e
  | _ => UpdateFailed "Error fetching data from Byte Watt API" (Some e)
  end.

(** What a login attempt obtains from the answers of the network. *)
Definition login_answer (answers : list http_result) : result json :=
  match answers with
  | Response _ (Some body) :: _ => login_token body
  | Response _ None :: _ => Raise DecodeError
  | _ => Raise ClientError
  end.

(** The state after a sleep of the retry delay. *)
Definition after_sleep (s : state) : state :=
  State (self s) (net s) (headers_obj s) (log s ++ [Sleep RETRY_DELAY]).

(** Headers that carry the signature and timestamp of monitor [c]. *)
Definition carries (c : ByteWattBatteryMonitor) (h : gmap string hval) : Prop :=
  h !! "authsignature" = Some (Str (auth_signature c))
  ∧ h !! "authtimestamp" = Some (Str (py_str_int (auth_timestamp c))).

(** What an operation may do to a state: replace the token, put a new bearer
    into the shared headers, take answers, and send requests that carry the
    credentials of [c]. *)
Definition preserves (c : ByteWattBatteryMonitor) (s s' : state) : Prop :=
  same_identity c (self s')
  ∧ carries c (headers_obj s')
  ∧ ∃ new, log s' = log s ++ new ∧ Forall (uses_credentials_of c) new.

(** ** Scenarios *)

(** [{"data": {"AccessToken": tok}}] *)
Definition login_body (tok : string) : json :=
  JObj {[ "data" := JObj {[ "AccessToken" := JStr tok ]} ]}.

(** [{"code": 9007}] *)
Definition transient_body : json := JObj {[ "code" := JInt 9007 ]}.

(** A monitor constructed at clock reading 1700000000 that holds token
    ["old"], facing the given answers; nothing requested yet. *)
Definition logged_in (answers : list http_result) : state :=
  State (with_token (__init__ 1700000000 "user" "secret" 1) (JStr "old")) answers ∅ [].

(** The same monitor before its first login. *)
Definition fresh (answers : list http_result) : state :=
  State (__init__ 1700000000 "user" "secret" 1) answers ∅ [].

(** The snapshot of the concrete scenario of the specification. *)
Definition scenario_snapshot : gmap string json :=
  list_to_map
    [ ("soc", JInt 55); ("pmeter_l1", JFloat (-120.5)); ("pmeter_l2", JInt 80);
      ("pmeter_l3", JInt 0); ("pbat", JInt (-50));
      ("ppv1", JInt 100); ("ppv2", JInt 0); ("ppv3", JInt 0); ("ppv4", JInt 0);
      ("preal_l1", JInt 10); ("preal_l2", JInt 20); ("preal_l3", JInt 0) ].

(** The reading of the sensor called [name], on the coordinator's data. *)
Definition reading (float_of_str : string -> result float) (name : string)
    (coordinator_data : json) : option (result json) :=
  match find (fun nf => String.eqb (fst nf) name) (sensors float_of_str) with
  | Some nf => Some (native_value (snd nf) coordinator_data)
  | None => None
  end.

(** A field that is missing from the snapshot, or present with [None]. *)
Definition absent (data : gmap string json) (key : string) : Prop :=
  data !! key = None ∨ data !! key = Some JNull.

(** ** sensor.py: the entity *)

(** [c.lower()] on one code point below 256: the ASCII capitals and the
    Latin-1 capitals (U+00C0 to U+00DE, the sign U+00D7 apart) move up by 32. *)
Definition lower_char (c : ascii) : ascii :=
  let n := N_of_ascii c in
  if ((65 <=? n) && (n <=? 90) || (192 <=? n) && (n <=? 222) && negb (n =? 215))%N
  then ascii_of_N (n + 32)
  else c.

(** [s.lower()] *)
Fixpoint py_lower (s : string) : string :=
  match s with
  | EmptyString => EmptyString
  | String c s' => String (lower_char c) (py_lower s')
  end.

(** [s.replace(old, new)] for one-character [old] and [new]. *)
Fixpoint replace_char (old new : ascii) (s : string) : string :=
  match s with
  | EmptyString => EmptyString
  | String c s' => String (if Ascii.eqb c old then new else c) (replace_char old new s')
  end.

(** The attributes [BatterySensor.__init__] sets from its [name], [formula]
    and [entity_registry_enabled_default] arguments (the unit and the classes
    are stored as given, the device info names the account). *)
Record BatterySensor := Entity {
  _name : string;
  _formula : gmap string json -> result json;
  _attr_unique_id : string;
  _attr_entity_registry_enabled_default : bool;
}.

(** [BatterySensor.__init__] *)
Definition BatterySensor_init (name : string) (formula : gmap string json -> result json)
    (entity_registry_enabled_default : bool) : BatterySensor :=
  {| _name := name;
     _formula := formula;
     _attr_unique_id := replace_char " " "_" (py_lower name);
     _attr_entity_registry_enabled_default := entity_registry_enabled_default |}.

(** [BatterySensor.create_hidden] *)
Definition create_hidden (name : string) (formula : gmap string json -> result json)
    : BatterySensor :=
  BatterySensor_init name formula false.

(** The entities [async_setup_entry] hands to [async_add_entities]: a sensor
    is created with [BatterySensor(...)], enabled by default, or with
    [BatterySensor.create_hidden(...)]. *)
Definition async_setup_entry (float_of_str : string -> result float) : list BatterySensor :=
  [ BatterySensor_init "State of Charge" state_of_charge true;
    BatterySensor_init "Grid Phase 1 Feed-In" (clamp_negative float_of_str "pmeter_l1") true;
    BatterySensor_init "Grid Phase 1 Consumption" (clamp_positive float_of_str "pmeter_l1") true;
    BatterySensor_init "Grid Phase 2 Feed-In" (clamp_negative float_of_str "pmeter_l2") true;
    BatterySensor_init "Grid Phase 2 Consumption" (clamp_positive float_of_str "pmeter_l2") true;
    BatterySensor_init "Grid Phase 3 Feed-In" (clamp_negative float_of_str "pmeter_l3") true;
    BatterySensor_init "Grid Phase 3 Consumption" (clamp_positive float_of_str "pmeter_l3") true;
    BatterySensor_init "Battery Charging" (battery_charging float_of_str) true;
    create_hidden "MPPT Tracker String 1" (field "ppv1");
    create_hidden "MPPT Tracker String 2" (field "ppv2");
    create_hidden "MPPT Tracker String 3" (field "ppv3");
    create_hidden "MPPT Tracker String 4" (field "ppv4");
    BatterySensor_init "Battery Phase 1 Discharging" (field "preal_l1") true;
    BatterySensor_init "Battery Phase 2 Discharging" (field "preal_l2") true;
    BatterySensor_init "Battery Phase 3 Discharging" (field "preal_l3") true;
    BatterySensor_init "Battery Discharging" (battery_discharging float_of_str) true;
    BatterySensor_init "PV Generation" (pv_generation float_of_str) true;
    BatterySensor_init "Grid Feed-In" (grid_feed_in float_of_str) true;
    BatterySensor_init "Grid Consumption" (grid_consumption float_of_str) true ].

(** ** config_flow.py *)

(** The dict that [STEP_USER_DATA_SCHEMA] yields: the two required strings
    under ["username"] and ["password"], and under [CONF_SCAN_INTERVAL] the
    interval coerced to [int], the default filled in. *)
Record user_input := UserInput {
  input_username : string;
  input_password : string;
  input_scan_interval : Z;
}.

(** What leaves the flow's functions as an exception: one of the monitor's,
    passed on as it is, or one of the two classes of the module. *)
Inductive flow_exn :=
| Uncaught (e : exn)
| CannotConnect (cause : exn)
| InvalidAuth (cause : exn).

(** [isinstance(e, requests.exceptions.RequestException)], with the status
    of the response for an [HTTPError].  None of the exceptions that reach
    the handlers is one: [UpdateFailed] is a [HomeAssistantError], the
    transport error comes from aiohttp, the others are builtins. *)
Definition as_requests_exception (e : exn) : option (option Z) :=
  match e with
  | UpdateFailed _ _ | ClientError | DecodeError | KeyError _
  | TypeError | AttributeError | ValueError | OverflowError => None
  end.

(** [validate_input]; the new monitor is constructed at clock reading
    [clock] and uses the session, so the answers and the log, of [s]. *)
Definition validate_input (clock : Z) (data : user_input) (s : state)
    : (gmap string string + flow_exn) * state :=
  let battery_monitor :=
    __init__ clock (input_username data) (input_password data) (input_scan_interval data) in
  match authenticate (State battery_monitor (net s) (headers_obj s) (log s)) with
  | (Raise err, s') =>
      match as_requests_exception err with
      | Some (Some status_code) =>
          if (status_code =? 401)%Z then (inr (InvalidAuth err), s')
          else (inr (CannotConnect err), s')
      | Some None => (inr (CannotConnect err), s')
      | None => (inr (Uncaught err), s')
      end
  | (Ok _, s') =>
      (inl {[ "title" := "Neovolt Battery (" +:+ input_username data +:+ ")" ]}, s')
  end.

(** What a step of the flow returns: the call it makes on the flow handler. *)
Inductive ConfigFlowResult :=
| async_create_entry (title : string) (data : user_input)
| async_show_form (step_id : string) (errors : gmap string string).

(** [ByteWattBatteryConfigFlow.async_step_user] *)
Definition async_step_user (clock : Z) (user_input : option user_input) (s : state)
    : (ConfigFlowResult + flow_exn) * state :=
  let errors : gmap string string := ∅ in
  match user_input with
  | Some data =>
      match validate_input clock data s with
      | (inr (CannotConnect _), s') =>
          (inl (async_show_form "user" (<["base" := "cannot_connect"]> errors)), s')
      | (inr (InvalidAuth _), s') =>
          (inl (async_show_form "user" (<["base" := "invalid_auth"]> errors)), s')
      | (inr (Uncaught e), s') => (inr (Uncaught e), s')
      | (inl info, s') =>
          match info !! "title" with
          | Some title => (inl (async_create_entry title data), s')
          | None => (inr (Uncaught (KeyError "title")), s')
          end
      end
  | None => (inl (async_show_form "user" errors), s)
  end.

(** [ByteWattBatteryConfigFlow.async_step_import] *)
Definition async_step_import (clock : Z) (import_config : user_input) (s : state)
    : (ConfigFlowResult + flow_exn) * state :=
  async_step_user clock (Some import_config) s.

(** ** Further vocabulary *)

Definition is_post (e : event) : bool :=
  match e with Post _ _ _ _ _ => true | _ => false end.
Definition is_sleep (e : event) : bool :=
  match e with Sleep _ => true | _ => false end.

(** An answer on which an attempt fails without a login: the transport
    fails, or the status is not 401 and the body yields no data. *)
Definition failing (r : http_result) : bool :=
  match r with
  | Transport_error => true
  | Response status body =>
      negb (status =? 401)%Z
      && match attempt_result body with Raise _ => true | Ok _ => false end
  end.

(** The exception of the attempt on a failing answer. *)
Definition failure_of (r : http_result) : exn :=
  match r with
  | Transport_error => ClientError
  | Response _ body =>
      match attempt_result body with Raise e => e | Ok _ => ClientError end
  end.

(** What [new] events cost: at most [g] telemetry requests, [p] logins and
    [z] sleeps, each sleep of [RETRY_DELAY] seconds. *)
Definition within (g p z : nat) (new : list event) : Prop :=
  length (List.filter is_get new) ≤ g
  ∧ length (List.filter is_post new) ≤ p
  ∧ length (List.filter is_sleep new) ≤ z
  ∧ Forall (fun e => is_sleep e = true → e = Sleep RETRY_DELAY) new.

(** From [s] to [s'] the log grew by events within the budget, and the
    answers left are those of [s] less at most one per request. *)
Definition spends (g p z : nat) (s s' : state) : Prop :=
  ∃ new used,
    log s' = log s ++ new ∧ within g p z new
    ∧ net s = used ++ net s' ∧ length used ≤ g + p.

(** No answer in the list has status 401. *)
Definition no_401 (answers : list http_result) : Prop :=
  Forall (fun r => match r with Response status _ => status ≠ 401%Z | Transport_error => True end)
         answers.

(** The monitor of a state with its [scan_interval] replaced. *)
Definition with_scan_interval (i : Z) (s : state) : state :=
  let c := self s in
  State (Monitor (username c) (password c) i (auth_timestamp c) (auth_signature c)
                 (access_token c))
        (net s) (headers_obj s) (log s).

(** [v < 0] and [0 < v] on the numbers a reading can be. *)
Definition is_negative (v : json) : bool :=
  match v with
  | JInt z => (z <? 0)%Z
  | JFloat f => PrimFloat.ltb f 0%float
  | _ => false
  end.
Definition is_positive (v : json) : bool :=
  match v with
  | JInt z => (0 <? z)%Z
  | JFloat f => PrimFloat.ltb 0%float f
  | _ => false
  end.

(** The bytes [generate_auth_signature] hashes for timestamp [t]. *)
Definition signed_bytes (t : Z) : list Z :=
  encode (String.concat "" secrets +:+ py_str_int t).

(** One character of a unique id: lowered, a space turned into an
    underscore. *)
Definition unique_char (c : ascii) : ascii :=
  if Ascii.eqb (lower_char c) " " then "_"%char else lower_char c.

Definition is_space (c : ascii) : bool := Ascii.eqb c " ".
Definition is_capital (c : ascii) : bool :=
  let n := N_of_ascii c in ((65 <=? n) && (n <=? 90))%N.

(** * Properties *)

(** ** The signature (helpers.py) *)

Example sha512_abc :
  SHA512.hexdigest (encode "abc") =
  "ddaf35a193617abacc417349ae20413112e6fa4e89a97ea20a9eeee64b55d39a2192992a274fc1a836ba3c23a3feebbd454d4423643ce80e2a9ac94fa54ca49f".
Proof. vm_compute. reflexivity. Qed.

Example sha512_empty :
  SHA512.hexdigest (encode "") =
  "cf83e1357eefb8bdf1542850d66d8007d620e4050b5715dc83f4a921d36ce9ce47d0d13c5d85f2b0ff8318d2877eec2f63b931bd47417a81a538327af927da3e".
Proof. vm_compute. reflexivity. Qed.

(** Two blocks: 200 bytes. *)
Example sha512_two_blocks :
  SHA512.hexdigest (repeat 97%Z 200) =
  "4b11459c33f52a22ee8236782714c150a3b2c60994e9acee17fe68947a3e6789f31e7668394592da7bef827cddca88c4e6f86e4df7ed1ae6cba71f3e98faee9f".
Proof. vm_compute. reflexivity. Qed.

Example generate_auth_signature_1700000000 :
  generate_auth_signature 1700000000 =
  "al8e4s5361b91fde636db63b90ff14a51f4f7ea9a57b91937e638efa9b9089eaaea621b868ae1f3676ee7caa5faf5e38143fa2ba5c011d57f6820a8f946567c639f45bui893ed".
Proof. vm_compute. reflexivity. Qed.

Lemma string_length_append (s1 s2 : string) :
  String.length (s1 +:+ s2) = String.length s1 + String.length s2.
Proof. induction s1 as [|c s1 IH]; simpl; [done | by rewrite IH]. Qed.

Lemma digest_length (msg : list Z) : length (SHA512.digest msg) = 64.
Proof. reflexivity. Qed.

Lemma hex_length (bs : list Z) : String.length (SHA512.hex bs) = 2 * length bs.
Proof. induction bs as [|b bs IH]; simpl; [done | rewrite IH; lia]. Qed.

Lemma hex_digit_lower (d : Z) : is_lower_hex (SHA512.hex_digit d) = true.
Proof.
  unfold SHA512.hex_digit.
  generalize (Z.to_nat d); intros n.
  do 17 (destruct n as [|n]; [reflexivity|]).
  reflexivity.
Qed.

Lemma hex_lower (bs : list Z) :
  forallb is_lower_hex (list_ascii_of_string (SHA512.hex bs)) = true.
Proof.
  induction bs as [|b bs IH]; simpl; [done|].
  by rewrite !hex_digit_lower, IH.
Qed.

(** [str(t)] is a decimal numeral that reads back as [t]. *)
Lemma py_str_int_reads_back (t : Z) :
  option_map Z.of_int (NilZero.int_of_string (py_str_int t)) = Some t.
Proof.
  unfold py_str_int.
  rewrite NilZero.isi.
  - simpl. by rewrite DecimalZ.of_to.
  - destruct t; simpl; try discriminate.
    intros [= H]. by apply (DecimalPos.Unsigned.to_uint_nonnil p).
  - destruct t; simpl; try discriminate.
    intros [= H]. by apply (DecimalPos.Unsigned.to_uint_nonnil p).
Qed.

Lemma string_of_uint_ascii (d : Decimal.uint) :
  forallb is_ascii (list_ascii_of_string (NilEmpty.string_of_uint d)) = true.
Proof. induction d; simpl; done. Qed.

(** The text that is hashed is ASCII, on which [str.encode()] is the
    identity on code points. *)
Lemma auth_string_ascii (t : Z) :
  forallb is_ascii (list_ascii_of_string (String.concat "" secrets +:+ py_str_int t)) = true.
Proof.
  assert (forallb is_ascii (list_ascii_of_string (py_str_int t)) = true) as Hdec.
  { unfold py_str_int, NilZero.string_of_int, NilZero.string_of_uint.
    destruct (Z.to_int t) as [d|d].
    - destruct d; try reflexivity; apply string_of_uint_ascii.
    - cbn [list_ascii_of_string forallb]. rewrite andb_true_l.
      destruct d; try reflexivity; apply string_of_uint_ascii. }
  simpl. exact Hdec.
Qed.

(** C4: for every integer timestamp the signature is the prefix, the
    lowercase hex SHA-512 digest of the four secrets followed by the decimal
    timestamp, and the suffix: 6 + 128 + 7 characters; it depends on the
    timestamp alone. *)
Theorem generate_auth_signature_spec (t : Z) :
  generate_auth_signature t = computeSignature_spec t
  ∧ option_map Z.of_int (NilZero.int_of_string (py_str_int t)) = Some t
  ∧ (∃ h, generate_auth_signature t = "al8e4s" +:+ h +:+ "ui893ed"
          ∧ h = SHA512.hexdigest (encode (String.concat "" secrets +:+ py_str_int t))
          ∧ String.length h = 128
          ∧ forallb is_lower_hex (list_ascii_of_string h) = true)
  ∧ String.length (generate_auth_signature t) = 141
  ∧ (∀ t', t' = t → generate_auth_signature t' = generate_auth_signature t).
Proof.
  split; [reflexivity|].
  split; [apply py_str_int_reads_back|].
  split.
  - eexists. split; [reflexivity|]. split; [reflexivity|].
    split; [|apply hex_lower].
    unfold SHA512.hexdigest. by rewrite hex_length, digest_length.
  - split.
    + unfold generate_auth_signature.
      rewrite !string_length_append. unfold SHA512.hexdigest.
      by rewrite hex_length, digest_length.
    + by intros t' ->.
Qed.

(** ** The monitor (battery_monitor.py) *)

Lemma request_eq (e : event) (s : state) :
  request e s =
  (match net s with
   | Response status body :: _ => Ok (status, body)
   | _ => Raise ClientError
   end, after_request s e).
Proof.
  destruct s as [c n h l]. unfold request, bind, emit, after_request. simpl.
  destruct n as [|[|status body] rest]; reflexivity.
Qed.

(** [authenticate] in one equation: the token is replaced exactly when the
    body has [data.AccessToken], whatever the status. *)
Lemma authenticate_eq (s : state) :
  authenticate s =
  let s1 := after_request s (login_request (self s)) in
  match net s with
  | Response _ (Some body) :: _ =>
      match login_token body with
      | Ok tok => (Ok tt, State (with_token (self s) tok) (net s1) (headers_obj s1) (log s1))
      | Raise e => (Raise (auth_error e), s1)
      end
  | Response _ None :: _ => (Raise (auth_error DecodeError), s1)
  | _ => (Raise (auth_error ClientError), s1)
  end.
Proof.
  unfold authenticate, bind, try_except, get_self, post_json_and_fetch_response, bind.
  rewrite request_eq.
  destruct s as [c n h l]. simpl.
  destruct n as [|[|status [body|]] rest]; try reflexivity.
  simpl. unfold login_token, lift.
  destruct (subscript body "data") as [d|e]; [|reflexivity].
  destruct (subscript d "AccessToken") as [tok|e]; reflexivity.
Qed.

(** One attempt in one equation. *)
Lemma fetch_battery_data_eq (url : string) (params : gmap string json) (s : state) :
  fetch_battery_data url params s =
  let s1 := after_request s (Get url params (headers_obj s) REQUEST_TIMEOUT) in
  match net s with
  | Response status body :: _ =>
      if (status =? 401)%Z then
        match authenticate s1 with
        | (Ok _, s2) =>
            (Ok (JObj ∅),
             State (self s2) (net s2)
                   (<["Authorization" := Bearer (access_token (self s2))]> (headers_obj s2))
                   (log s2))
        | (Raise e, s2) => (Raise e, s2)
        end
      else (attempt_result body, s1)
  | _ => (Raise ClientError, s1)
  end.
Proof.
  unfold fetch_battery_data, bind at 1 2. unfold get_headers at 1.
  rewrite request_eq. cbv zeta.
  destruct (net s) as [|[|status body] rest] eqn:Hnet; try reflexivity.
  cbn [fst snd].
  destruct (status =? 401)%Z.
  - unfold bind. destruct (authenticate _) as [[[]|e] s2]; reflexivity.
  - unfold bind, response_json, lift.
    destruct body as [data|]; [|reflexivity].
    unfold ret, raise, attempt_result.
    destruct data as [ | | | | | |m]; try reflexivity.
    cbn [py_get]. unfold classify.
    destruct (eq_9007 _); [reflexivity|].
    destruct (m !! "data") as [[ | | | | | |d]|]; try reflexivity.
    destruct (bool_decide _); reflexivity.
Qed.

Lemma retry_loop_cons (attempt : Z) (rest : list Z) (s : state) :
  retry_loop (attempt :: rest) s =
  match fetch_battery_data data_url data_params s with
  | (Ok data, s') => if is_not_none data then (Ok data, s') else retry_loop rest s'
  | (Raise err, s') =>
      if (attempt <? MAX_RETRIES - 1)%Z
      then retry_loop rest (State (self s') (net s') (headers_obj s') (log s' ++ [Sleep RETRY_DELAY]))
      else (Raise (match err with
                   | UpdateFailed _ _ => err
                   | _ => UpdateFailed "Error fetching data from Byte Watt API" (Some err)
                   end), s')
  end.
Proof.
  cbn [retry_loop].
  destruct (fetch_battery_data data_url data_params s) as [[data|err] s']; [reflexivity|].
  destruct err; destruct (attempt <? MAX_RETRIES - 1)%Z; reflexivity.
Qed.

Lemma get_battery_data_eq (s : state) :
  get_battery_data s =
  let '(r, s1) := if truthy (access_token (self s)) then (Ok tt, s) else authenticate s in
  match r with
  | Ok _ =>
      retry_loop [0; 1; 2]%Z
        (State (self s1) (net s1) (standard_headers (self s1)) (log s1))
  | Raise e => (Raise e, s1)
  end.
Proof.
  unfold get_battery_data, bind, get_self, set_headers, ret.
  destruct (truthy (access_token (self s))); cbn [negb].
  - reflexivity.
  - destruct (authenticate s) as [[[]|e] s1]; reflexivity.
Qed.

Lemma attempt_result_not_none (body : option json) (v : json) :
  attempt_result body = Ok v → is_not_none v = true.
Proof.
  destruct body as [[ | | | | | |m]|]; try discriminate. simpl.
  destruct (classify m); try discriminate. by intros [= <-].
Qed.

(** An attempt that fails on an answer other than 401: the loop sleeps and
    goes on while attempts remain, and raises on the last one. *)
Lemma retry_loop_failed_attempt (attempt : Z) (rest : list Z) (s : state)
    (status : Z) (body : option json) (more : list http_result) (e : exn) :
  net s = Response status body :: more → status ≠ 401%Z →
  attempt_result body = Raise e →
  retry_loop (attempt :: rest) s =
  let s1 := after_request s (data_request (headers_obj s)) in
  if (attempt <? MAX_RETRIES - 1)%Z then retry_loop rest (after_sleep s1)
  else (Raise (surfaced e), s1).
Proof.
  intros Hnet Hst He.
  rewrite retry_loop_cons, fetch_battery_data_eq, Hnet. cbv zeta.
  apply Z.eqb_neq in Hst. rewrite Hst, He. reflexivity.
Qed.

Lemma retry_loop_good_attempt (attempt : Z) (rest : list Z) (s : state)
    (status : Z) (body : option json) (more : list http_result) (v : json) :
  net s = Response status body :: more → status ≠ 401%Z →
  attempt_result body = Ok v →
  retry_loop (attempt :: rest) s = (Ok v, after_request s (data_request (headers_obj s))).
Proof.
  intros Hnet Hst Hv.
  rewrite retry_loop_cons, fetch_battery_data_eq, Hnet. cbv zeta.
  apply Z.eqb_neq in Hst. rewrite Hst, Hv.
  by rewrite (attempt_result_not_none _ _ Hv).
Qed.

Lemma authenticate_ok (s : state) (status : Z) (body tok : json) (rest : list http_result) :
  net s = Response status (Some body) :: rest → login_token body = Ok tok →
  authenticate s =
  (Ok tt, State (with_token (self s) tok) rest (headers_obj s)
                (log s ++ [login_request (self s)])).
Proof.
  intros Hnet Htok.
  rewrite authenticate_eq. cbv zeta. unfold after_request. cbn [net headers_obj log self].
  by rewrite Hnet, Htok.
Qed.

Lemma authenticate_raises (s : state) (cause : exn) :
  login_answer (net s) = Raise cause →
  authenticate s = (Raise (auth_error cause), after_request s (login_request (self s))).
Proof.
  intros Hfail. rewrite authenticate_eq. cbv zeta. unfold login_answer in Hfail.
  destruct (net s) as [|[|status [body|]] rest]; try by injection Hfail as <-.
  by rewrite Hfail.
Qed.

(** C5 (as amended): a login answer whose body has [data.AccessToken] leaves
    the monitor with exactly that token and raises nothing, whatever the
    status of the answer; a transport failure, a body that does not decode
    and a body without the token field raise [UpdateFailed] wrapping the
    cause and leave the monitor as it was. *)
Theorem authenticate_token_or_unchanged (s : state) :
  (∀ status body rest tok,
      net s = Response status (Some body) :: rest → login_token body = Ok tok →
      authenticate s =
      (Ok tt, State (with_token (self s) tok) rest (headers_obj s)
                    (log s ++ [login_request (self s)])))
  ∧ (∀ cause,
      login_answer (net s) = Raise cause →
      authenticate s = (Raise (auth_error cause), after_request s (login_request (self s)))
      ∧ self (snd (authenticate s)) = self s).
Proof.
  split.
  - intros status body rest tok. apply authenticate_ok.
  - intros cause Hfail. by rewrite (authenticate_raises s cause Hfail).
Qed.

(** The claim as stated fails: a login answer with status 500 whose body has
    the token field raises nothing and replaces the stored token. *)
Lemma authenticate_accepts_status_500 :
  let s := logged_in [Response 500 (Some (login_body "abc123"))] in
  access_token (self s) = JStr "old"
  ∧ fst (authenticate s) = Ok tt
  ∧ access_token (self (snd (authenticate s))) = JStr "abc123".
Proof. vm_compute. done. Qed.

Example authenticate_valid_login :
  let s := fresh [Response 200 (Some (login_body "abc123"))] in
  fst (authenticate s) = Ok tt
  ∧ access_token (self (snd (authenticate s))) = JStr "abc123".
Proof. vm_compute. done. Qed.

Example authenticate_failures_keep_token :
  let token_after answers := access_token (self (snd (authenticate (logged_in answers)))) in
  let raised answers := fst (authenticate (logged_in answers)) in
  raised [] = Raise (auth_error ClientError)
  ∧ raised [Response 200 None] = Raise (auth_error DecodeError)
  ∧ raised [Response 200 (Some (JObj ∅))] = Raise (auth_error (KeyError "data"))
  ∧ raised [Response 200 (Some (JObj {[ "data" := JObj ∅ ]}))]
    = Raise (auth_error (KeyError "AccessToken"))
  ∧ raised [Response 200 (Some (JObj {[ "data" := JNull ]}))] = Raise (auth_error TypeError)
  ∧ token_after [] = JStr "old"
  ∧ token_after [Response 200 None] = JStr "old"
  ∧ token_after [Response 200 (Some (JObj ∅))] = JStr "old".
Proof. vm_compute. done. Qed.

Lemma retry_loop_transient_attempt (attempt : Z) (rest : list Z) (s : state)
    (status : Z) (m : gmap string json) (more : list http_result) :
  net s = Response status (Some (JObj m)) :: more → status ≠ 401%Z →
  eq_9007 (default JNull (m !! "code")) = true →
  retry_loop (attempt :: rest) s =
  let s1 := after_request s (data_request (headers_obj s)) in
  if (attempt <? MAX_RETRIES - 1)%Z then retry_loop rest (after_sleep s1)
  else (Raise transient_error, s1).
Proof.
  intros Hnet Hst Hcode.
  apply (retry_loop_failed_attempt _ _ _ _ _ _ transient_error Hnet Hst).
  simpl. unfold classify. by rewrite Hcode.
Qed.

(** C3: three answers in a row with error code 9007.  The loop makes three
    requests with a sleep of 2 seconds between consecutive ones and raises
    the [UpdateFailed] of the third attempt; the answers after the third are
    left untouched, so no fourth request is made.  So does
    [get_battery_data] on a monitor that holds a token. *)
Theorem three_transient_failures (s : state) (st1 st2 st3 : Z)
    (m1 m2 m3 : gmap string json) (rest : list http_result) :
  net s = Response st1 (Some (JObj m1)) :: Response st2 (Some (JObj m2))
          :: Response st3 (Some (JObj m3)) :: rest →
  st1 ≠ 401%Z → st2 ≠ 401%Z → st3 ≠ 401%Z →
  eq_9007 (default JNull (m1 !! "code")) = true →
  eq_9007 (default JNull (m2 !! "code")) = true →
  eq_9007 (default JNull (m3 !! "code")) = true →
  let failure := UpdateFailed "Network error code 9007 from Byte Watt API" None in
  let get h := Get data_url data_params h REQUEST_TIMEOUT in
  retry_loop (range MAX_RETRIES) s =
  (Raise failure,
   State (self s) rest (headers_obj s)
         (log s ++ [get (headers_obj s); Sleep 2; get (headers_obj s); Sleep 2;
                    get (headers_obj s)]))
  ∧ (truthy (access_token (self s)) = true →
     let h := standard_headers (self s) in
     get_battery_data s =
     (Raise failure, State (self s) rest h (log s ++ [get h; Sleep 2; get h; Sleep 2; get h]))).
Proof.
  intros Hnet H1 H2 H3 C1 C2 C3 failure get.
  assert (∀ h l,
            retry_loop [0; 1; 2]%Z
              (State (self s)
                     (Response st1 (Some (JObj m1)) :: Response st2 (Some (JObj m2))
                      :: Response st3 (Some (JObj m3)) :: rest) h l) =
            (Raise failure,
             State (self s) rest h (l ++ [get h; Sleep 2; get h; Sleep 2; get h])))
    as Hloop.
  { intros h l.
    erewrite retry_loop_transient_attempt; [|reflexivity|done|done].
    simpl (_ <? _)%Z. cbv zeta.
    erewrite retry_loop_transient_attempt; [|reflexivity|done|done].
    simpl (_ <? _)%Z. cbv zeta.
    erewrite retry_loop_transient_attempt; [|reflexivity|done|done].
    simpl (_ <? _)%Z.
    unfold after_sleep, after_request, data_request. simpl.
    by rewrite <- !app_assoc. }
  split.
  - destruct s as [c n h l]. cbn [net self headers_obj log] in *. subst n. apply Hloop.
  - intros Htok h. rewrite get_battery_data_eq, Htok, Hnet. apply Hloop.
Qed.

Lemma three_transient_failures_witness :
  let s := logged_in [Response 200 (Some transient_body); Response 200 (Some transient_body);
                      Response 200 (Some transient_body); Response 200 (Some transient_body)] in
  let h := standard_headers (self s) in
  let get := Get data_url data_params h REQUEST_TIMEOUT in
  get_battery_data s =
  (Raise (UpdateFailed "Network error code 9007 from Byte Watt API" None),
   State (self s) [Response 200 (Some transient_body)] h
         (log s ++ [get; Sleep 2; get; Sleep 2; get])).
Proof.
  apply (three_transient_failures
           (logged_in [Response 200 (Some transient_body); Response 200 (Some transient_body);
                       Response 200 (Some transient_body); Response 200 (Some transient_body)])
           200 200 200 {[ "code" := JInt 9007 ]} {[ "code" := JInt 9007 ]}
           {[ "code" := JInt 9007 ]} [Response 200 (Some transient_body)]);
    first [ reflexivity | discriminate ].
Defined.

Example three_transient_failures_count :
  let s := snd (get_battery_data
                  (fresh [Response 200 (Some (login_body "abc123"));
                          Response 200 (Some transient_body); Response 200 (Some transient_body);
                          Response 200 (Some transient_body); Response 200 (Some transient_body)])) in
  length (filter is_get (log s)) = 3 ∧ length (net s) = 1
  ∧ filter (fun e => negb (is_get e)) (log s)
    = [login_request (__init__ 1700000000 "user" "secret" 1); Sleep 2; Sleep 2].
Proof. vm_compute. done. Qed.

(** C1, what the code does: an attempt is answered 401 and the login that
    follows succeeds.  One login is made and the shared headers now carry
    the new token, but the loop returns the empty dict of the attempt at
    once, whichever attempt it was, and so does [get_battery_data]: no
    request is made with the new token. *)
Theorem unauthorized_attempt_is_not_retried (s : state) (body : option json)
    (status : Z) (login tok : json) (more : list http_result) :
  net s = Response 401 body :: Response status (Some login) :: more →
  login_token login = Ok tok →
  (∀ attempt rest,
      retry_loop (attempt :: rest) s =
      (Ok (JObj ∅),
       State (with_token (self s) tok) more
             (<["Authorization" := Bearer tok]> (headers_obj s))
             (log s ++ [Get data_url data_params (headers_obj s) REQUEST_TIMEOUT;
                        login_request (self s)])))
  ∧ (truthy (access_token (self s)) = true →
     get_battery_data s =
     (Ok (JObj ∅),
      State (with_token (self s) tok) more
            (<["Authorization" := Bearer tok]> (standard_headers (self s)))
            (log s ++ [Get data_url data_params (standard_headers (self s)) REQUEST_TIMEOUT;
                       login_request (self s)]))).
Proof.
  intros Hnet Hlogin.
  assert (∀ h l attempt rest,
            retry_loop (attempt :: rest)
              (State (self s) (Response 401 body :: Response status (Some login) :: more) h l) =
            (Ok (JObj ∅),
             State (with_token (self s) tok) more (<["Authorization" := Bearer tok]> h)
                   (l ++ [Get data_url data_params h REQUEST_TIMEOUT; login_request (self s)])))
    as Hloop.
  { intros h l attempt rest.
    rewrite retry_loop_cons, fetch_battery_data_eq.
    cbn [net self headers_obj log]. cbv zeta.
    change (401 =? 401)%Z with true. cbv iota.
    rewrite (authenticate_ok _ status login tok more); [|reflexivity|exact Hlogin].
    cbn [is_not_none self net headers_obj log after_request with_token access_token].
    by rewrite <- app_assoc. }
  split.
  - intros attempt rest. destruct s as [c n h l].
    cbn [net self headers_obj log] in *. subst n. apply Hloop.
  - intros Htok. rewrite get_battery_data_eq, Htok, Hnet. apply Hloop.
Qed.

Lemma unauthorized_attempt_is_not_retried_witness :
  let s := logged_in [Response 401 None; Response 200 (Some (login_body "new"));
                      Response 200 (Some (JObj {[ "data" := JObj {[ "soc" := JInt 55 ]} ]}))] in
  get_battery_data s =
  (Ok (JObj ∅),
   State (with_token (self s) (JStr "new"))
         [Response 200 (Some (JObj {[ "data" := JObj {[ "soc" := JInt 55 ]} ]}))]
         (<["Authorization" := Bearer (JStr "new")]> (standard_headers (self s)))
         (log s ++ [Get data_url data_params (standard_headers (self s)) REQUEST_TIMEOUT;
                    login_request (self s)])).
Proof.
  apply (unauthorized_attempt_is_not_retried
           (logged_in [Response 401 None; Response 200 (Some (login_body "new"));
                       Response 200 (Some (JObj {[ "data" := JObj {[ "soc" := JInt 55 ]} ]}))])
           None 200 (login_body "new") (JStr "new")); reflexivity.
Defined.

(** The first refresh of a fresh monitor: it logs in, then asks for the
    telemetry with the token it was given. *)
Example first_refresh_logs_in_then_fetches :
  let c := __init__ 1700000000 "user" "secret" 1 in
  let data : gmap string json := {[ "soc" := JInt 55 ]} in
  let s := snd (get_battery_data
                  (fresh [Response 200 (Some (login_body "abc123"));
                          Response 200 (Some (JObj {[ "data" := JObj data ]}))])) in
  log s = [login_request c;
           Get data_url data_params
               (standard_headers (with_token c (JStr "abc123"))) REQUEST_TIMEOUT]
  ∧ headers_obj s !! "Authorization" = Some (Bearer (JStr "abc123"))
  ∧ access_token (self s) = JStr "abc123".
Proof. vm_compute. done. Qed.

(** A transient failure followed by data: one sleep, two requests. *)
Example retry_then_success :
  let data : gmap string json := {[ "soc" := JInt 55 ]} in
  let r := get_battery_data
             (logged_in [Response 200 (Some transient_body);
                         Response 200 (Some (JObj {[ "data" := JObj data ]}))]) in
  fst r = Ok (JObj data)
  ∧ map is_get (log (snd r)) = [true; false; true]
  ∧ log (snd r) !! 1 = Some (Sleep 2).
Proof. vm_compute. done. Qed.

(** When the login after a 401 fails, the attempt fails with the login's
    [UpdateFailed] and the next attempt still carries the old token. *)
Example failed_relogin_is_retried_with_old_token :
  let data : gmap string json := {[ "soc" := JInt 55 ]} in
  let r := get_battery_data
             (logged_in [Response 401 None; Response 200 (Some (JObj ∅));
                         Response 200 (Some (JObj {[ "data" := JObj data ]}))]) in
  fst r = Ok (JObj data)
  ∧ access_token (self (snd r)) = JStr "old"
  ∧ headers_obj (snd r) !! "Authorization" = Some (Bearer (JStr "old"))
  ∧ map is_get (log (snd r)) = [true; false; false; true].
Proof. vm_compute. done. Qed.

Lemma attempt_result_ok_shape (body : option json) (v : json) :
  attempt_result body = Ok v → ∃ d, v = JObj d ∧ 0 < size d.
Proof.
  destruct body as [[ | | | | | |m]|]; try discriminate. simpl. unfold classify.
  destruct (eq_9007 _); [discriminate|].
  destruct (m !! "data") as [[ | | | | | |d]|]; try discriminate.
  case_bool_decide; [|discriminate].
  intros [= <-]. eauto.
Qed.

Lemma fetch_battery_data_ok_shape (url : string) (params : gmap string json)
    (s s' : state) (v : json) :
  fetch_battery_data url params s = (Ok v, s') →
  v = JObj ∅ ∨ ∃ d, v = JObj d ∧ 0 < size d.
Proof.
  rewrite fetch_battery_data_eq. cbv zeta.
  destruct (net s) as [|[|status body] rest]; try discriminate.
  destruct (status =? 401)%Z.
  - destruct (authenticate _) as [[[]|e] s2]; [|discriminate].
    intros [= <- _]. by left.
  - intros [= H _]. right. by eapply attempt_result_ok_shape.
Qed.

Lemma retry_loop_ok_shape (attempts : list Z) (s s' : state) (v : json) :
  retry_loop attempts s = (Ok v, s') →
  v = JObj ∅ ∨ ∃ d, v = JObj d ∧ 0 < size d.
Proof.
  revert s. induction attempts as [|attempt rest IH]; intros s.
  - intros [= <- _]. by left.
  - rewrite retry_loop_cons.
    destruct (fetch_battery_data data_url data_params s) as [[data|err] s1] eqn:Hfetch.
    + apply fetch_battery_data_ok_shape in Hfetch.
      assert (is_not_none data = true) as ->
        by (destruct Hfetch as [->|(d & -> & _)]; reflexivity).
      by intros [= <- _].
    + destruct (attempt <? MAX_RETRIES - 1)%Z; [apply IH | discriminate].
Qed.

(** C2, what the code does.  An answer whose [data] field is the empty object
    fails the attempt with [UpdateFailed], and the loop retries or raises: it
    is never returned.  What [get_battery_data] returns is a dict, non-empty
    or empty; and the empty one does come back, as the result of the call,
    when a request is answered 401 and the login that follows succeeds. *)
Theorem empty_data_fails_yet_empty_dict_returned :
  (∀ (s : state) (status : Z) (m : gmap string json) (more : list http_result)
     (attempt : Z) (rest : list Z),
      net s = Response status (Some (JObj m)) :: more → status ≠ 401%Z →
      m !! "data" = Some (JObj ∅) →
      let s1 := after_request s (data_request (headers_obj s)) in
      ∃ msg,
        fetch_battery_data data_url data_params s = (Raise (UpdateFailed msg None), s1)
        ∧ retry_loop (attempt :: rest) s =
          if (attempt <? MAX_RETRIES - 1)%Z then retry_loop rest (after_sleep s1)
          else (Raise (UpdateFailed msg None), s1))
  ∧ (∀ (s s' : state) (v : json),
      get_battery_data s = (Ok v, s') → v = JObj ∅ ∨ ∃ d, v = JObj d ∧ 0 < size d)
  ∧ fst (get_battery_data
           (logged_in [Response 401 None; Response 200 (Some (login_body "new"))]))
    = Ok (JObj ∅).
Proof.
  split; [|split].
  - intros s status m more attempt rest Hnet Hst Hdata s1.
    assert (∃ msg, attempt_result (Some (JObj m)) = Raise (UpdateFailed msg None))
      as [msg Hmsg].
    { simpl. unfold classify. rewrite Hdata.
      destruct (eq_9007 _); [by eexists|].
      rewrite map_size_empty. by eexists. }
    exists msg. split.
    + rewrite fetch_battery_data_eq, Hnet. cbv zeta.
      apply Z.eqb_neq in Hst. by rewrite Hst, Hmsg.
    + by rewrite (retry_loop_failed_attempt _ _ _ _ _ _ _ Hnet Hst Hmsg).
  - intros s s' v. rewrite get_battery_data_eq.
    destruct (truthy _).
    + apply retry_loop_ok_shape.
    + destruct (authenticate s) as [[[]|e] s1]; [apply retry_loop_ok_shape | discriminate].
  - vm_compute. reflexivity.
Qed.

(** C6 (as amended): an answer that is not a 401 is classified in this
    order.  A body that is a JSON object with error code 9007 raises the
    transient [UpdateFailed]; otherwise a non-empty object under [data] is
    returned; any other JSON object raises the format [UpdateFailed].  A body
    that does not decode as JSON raises the decoding error instead.  Each of
    these failures makes the loop sleep and go on to the next attempt while
    attempts remain; on the last attempt an [UpdateFailed] is raised as it
    is, and the decoding error wrapped in the loop's own [UpdateFailed]. *)
Theorem non_401_classification (s : state) (status : Z) (body : option json)
    (more : list http_result) :
  net s = Response status body :: more → status ≠ 401%Z →
  let s1 := after_request s (Get data_url data_params (headers_obj s) REQUEST_TIMEOUT) in
  let fetch := fetch_battery_data data_url data_params s in
  (∀ m, body = Some (JObj m) →
     (eq_9007 (default JNull (m !! "code")) = true →
        fetch = (Raise (UpdateFailed "Network error code 9007 from Byte Watt API" None), s1))
     ∧ (eq_9007 (default JNull (m !! "code")) = false →
        ∀ d, m !! "data" = Some (JObj d) → 0 < size d → fetch = (Ok (JObj d), s1))
     ∧ (eq_9007 (default JNull (m !! "code")) = false →
        (∀ d, m !! "data" = Some (JObj d) → size d = 0) →
        fetch = (Raise (UpdateFailed "Unexpected data format from Byte Watt API" None), s1)))
  ∧ (body = None → fetch = (Raise DecodeError, s1))
  ∧ (∀ e attempt rest,
       fetch = (Raise e, s1) →
       retry_loop (attempt :: rest) s =
       if (attempt <? MAX_RETRIES - 1)%Z then retry_loop rest (after_sleep s1)
       else (Raise (match e with
                    | UpdateFailed msg cause => UpdateFailed msg cause
                    | _ => UpdateFailed "Error fetching data from Byte Watt API" (Some e)
                    end), s1))
  ∧ range MAX_RETRIES = [0; 1; 2]%Z.
Proof.
  intros Hnet Hst s1 fetch.
  assert (fetch = (attempt_result body, s1)) as Hfetch.
  { unfold fetch. rewrite fetch_battery_data_eq, Hnet. cbv zeta.
    apply Z.eqb_neq in Hst. by rewrite Hst. }
  split; [|split; [|split; [|reflexivity]]].
  - intros m ->. cbn [attempt_result] in Hfetch. rewrite Hfetch. unfold classify.
    split; [|split].
    + intros Hcode. by rewrite Hcode.
    + intros Hcode d Hd Hsize. rewrite Hcode, Hd. by rewrite bool_decide_true.
    + intros Hcode Hempty. rewrite Hcode.
      destruct (m !! "data") as [[ | | | | | |d]|] eqn:Hd; try reflexivity.
      rewrite bool_decide_false; [reflexivity|]. specialize (Hempty d eq_refl). lia.
  - intros ->. exact Hfetch.
  - intros e attempt rest Hraise.
    rewrite Hfetch in Hraise. injection Hraise as Hraise.
    rewrite (retry_loop_failed_attempt _ _ _ _ body _ _ Hnet Hst Hraise).
    cbv zeta. unfold surfaced. by destruct e.
Qed.

Lemma non_401_classification_witness :
  let s := logged_in [Response 200 None; Response 200 (Some transient_body)] in
  let body : option json := None in
  let s1 := after_request s (Get data_url data_params (headers_obj s) REQUEST_TIMEOUT) in
  let fetch := fetch_battery_data data_url data_params s in
  (∀ m, body = Some (JObj m) →
     (eq_9007 (default JNull (m !! "code")) = true →
        fetch = (Raise (UpdateFailed "Network error code 9007 from Byte Watt API" None), s1))
     ∧ (eq_9007 (default JNull (m !! "code")) = false →
        ∀ d, m !! "data" = Some (JObj d) → 0 < size d → fetch = (Ok (JObj d), s1))
     ∧ (eq_9007 (default JNull (m !! "code")) = false →
        (∀ d, m !! "data" = Some (JObj d) → size d = 0) →
        fetch = (Raise (UpdateFailed "Unexpected data format from Byte Watt API" None), s1)))
  ∧ (body = None → fetch = (Raise DecodeError, s1))
  ∧ (∀ e attempt rest,
       fetch = (Raise e, s1) →
       retry_loop (attempt :: rest) s =
       if (attempt <? MAX_RETRIES - 1)%Z then retry_loop rest (after_sleep s1)
       else (Raise (match e with
                    | UpdateFailed msg cause => UpdateFailed msg cause
                    | _ => UpdateFailed "Error fetching data from Byte Watt API" (Some e)
                    end), s1))
  ∧ range MAX_RETRIES = [0; 1; 2]%Z.
Proof.
  apply (non_401_classification
           (logged_in [Response 200 None; Response 200 (Some transient_body)])
           200 None [Response 200 (Some transient_body)]);
    first [ reflexivity | discriminate ].
Defined.

(** The three classes of a JSON object, each at an input. *)
Example object_bodies_classified :
  let outcome body := fst (fetch_battery_data data_url data_params
                             (logged_in [Response 200 (Some (JObj body))])) in
  outcome {[ "code" := JInt 9007; "data" := JObj {[ "soc" := JInt 55 ]} ]}
  = Raise (UpdateFailed "Network error code 9007 from Byte Watt API" None)
  ∧ outcome {[ "code" := JInt 0; "data" := JObj {[ "soc" := JInt 55 ]} ]}
    = Ok (JObj {[ "soc" := JInt 55 ]})
  ∧ outcome {[ "data" := JObj ∅ ]}
    = Raise (UpdateFailed "Unexpected data format from Byte Watt API" None)
  ∧ outcome {[ "data" := JList [JInt 55] ]}
    = Raise (UpdateFailed "Unexpected data format from Byte Watt API" None)
  ∧ outcome ∅ = Raise (UpdateFailed "Unexpected data format from Byte Watt API" None).
Proof. vm_compute. done. Qed.

(** The claim as stated fails on a body that does not decode as JSON: the
    attempt raises the decoding error, not the format error; the loop, which
    catches any exception, retries it and raises it under its own message. *)
Lemma undecodable_body_is_not_a_format_error :
  let s := logged_in [Response 200 None; Response 200 None; Response 200 None] in
  fst (fetch_battery_data data_url data_params s) = Raise DecodeError
  ∧ fst (get_battery_data s)
    = Raise (UpdateFailed "Error fetching data from Byte Watt API" (Some DecodeError))
  ∧ length (List.filter is_get (log (snd (get_battery_data s)))) = 3.
Proof. vm_compute. done. Qed.

(** A body that is JSON but no object is met by no check: [data.get] raises
    [AttributeError] before the format error below it is reached. *)
Example list_body_is_not_a_format_error :
  let s := logged_in [Response 200 (Some (JList [])); Response 200 (Some (JList []));
                      Response 200 (Some (JList []))] in
  fst (fetch_battery_data data_url data_params s) = Raise AttributeError
  ∧ fst (get_battery_data s)
    = Raise (UpdateFailed "Error fetching data from Byte Watt API" (Some AttributeError)).
Proof. vm_compute. done. Qed.

(** ** What the operations leave alone *)

Lemma with_token_same (c : ByteWattBatteryMonitor) : with_token c (access_token c) = c.
Proof. by destruct c. Qed.

Lemma same_identity_refl (c : ByteWattBatteryMonitor) : same_identity c c.
Proof. by repeat split. Qed.

Lemma same_identity_with_token (c c' : ByteWattBatteryMonitor) (tok : json) :
  same_identity c c' → same_identity c (with_token c' tok).
Proof. intros (?&?&?&?&?). by repeat split. Qed.

Lemma login_request_uses (c c' : ByteWattBatteryMonitor) :
  same_identity c c' → uses_credentials_of c (login_request c').
Proof. intros (Hu & Hp & _ & Ht & Hs). simpl. rewrite Hu, Hp, Ht, Hs. by repeat split. Qed.

Lemma standard_headers_carry (c c' : ByteWattBatteryMonitor) :
  same_identity c c' → carries c (standard_headers c').
Proof. intros (_ & _ & _ & Ht & Hs). unfold carries, standard_headers. rewrite Ht, Hs. by split. Qed.

Lemma carries_new_bearer (c : ByteWattBatteryMonitor) (h : gmap string hval) (tok : json) :
  carries c h → carries c (<["Authorization" := Bearer tok]> h).
Proof. intros [Hs Ht]. split; by rewrite lookup_insert_ne. Qed.

Lemma preserves_intro (c : ByteWattBatteryMonitor) (s s' : state) (new : list event) :
  same_identity c (self s') → carries c (headers_obj s') →
  log s' = log s ++ new → Forall (uses_credentials_of c) new →
  preserves c s s'.
Proof. intros Hid Hh Hlog Hnew. split; [done|]. split; [done|]. by exists new. Qed.

Lemma preserves_refl (c : ByteWattBatteryMonitor) (s : state) :
  same_identity c (self s) → carries c (headers_obj s) → preserves c s s.
Proof. intros Hid Hh. apply (preserves_intro c s s []); [done|done| |done]. by rewrite app_nil_r. Qed.

Lemma preserves_trans (c : ByteWattBatteryMonitor) (s1 s2 s3 : state) :
  preserves c s1 s2 → preserves c s2 s3 → preserves c s1 s3.
Proof.
  intros (_ & _ & new1 & Hl1 & Hn1) (Hid & Hh & new2 & Hl2 & Hn2).
  apply (preserves_intro c s1 s3 (new1 ++ new2)); [done|done| |].
  - by rewrite Hl2, Hl1, app_assoc.
  - by apply Forall_app.
Qed.

(** [authenticate] replaces the token and nothing else of the monitor, leaves
    the shared headers alone, and sends one login request. *)
Lemma authenticate_frame (s : state) :
  (∃ tok, self (snd (authenticate s)) = with_token (self s) tok)
  ∧ headers_obj (snd (authenticate s)) = headers_obj s
  ∧ log (snd (authenticate s)) = log s ++ [login_request (self s)]
  ∧ net (snd (authenticate s)) = tl (net s).
Proof.
  rewrite authenticate_eq. cbv zeta. unfold after_request.
  assert (∃ tok, self s = with_token (self s) tok) as Hsame
    by (eexists; symmetry; apply with_token_same).
  destruct (net s) as [|[|status [body|]] rest]; try by repeat split.
  destruct (login_token body) as [tok|e]; [|by repeat split].
  repeat split. by exists tok.
Qed.

Lemma authenticate_preserves (c : ByteWattBatteryMonitor) (s : state) :
  same_identity c (self s) → carries c (headers_obj s) →
  preserves c s (snd (authenticate s)).
Proof.
  intros Hid Hh.
  destruct (authenticate_frame s) as ([tok Hself] & Hhead & Hlog & _).
  apply (preserves_intro c s _ [login_request (self s)]).
  - rewrite Hself. by apply same_identity_with_token.
  - by rewrite Hhead.
  - done.
  - apply Forall_singleton. by apply login_request_uses.
Qed.

Lemma request_preserves (c : ByteWattBatteryMonitor) (s : state) (e : event) :
  same_identity c (self s) → carries c (headers_obj s) → uses_credentials_of c e →
  preserves c s (after_request s e).
Proof.
  intros Hid Hh He. apply (preserves_intro c s _ [e]); try done.
  by apply Forall_singleton.
Qed.

Lemma get_uses (c : ByteWattBatteryMonitor) (url : string) (params : gmap string json)
    (h : gmap string hval) (timeout : Z) :
  carries c h → uses_credentials_of c (Get url params h timeout).
Proof. done. Qed.

Lemma fetch_battery_data_preserves (c : ByteWattBatteryMonitor) (url : string)
    (params : gmap string json) (s : state) :
  same_identity c (self s) → carries c (headers_obj s) →
  preserves c s (snd (fetch_battery_data url params s)).
Proof.
  intros Hid Hh.
  assert (preserves c s (after_request s (Get url params (headers_obj s) REQUEST_TIMEOUT)))
    as Hreq by (apply request_preserves; [done|done|by apply get_uses]).
  rewrite fetch_battery_data_eq. cbv zeta.
  destruct (net s) as [|[|status body] rest]; try exact Hreq.
  destruct (status =? 401)%Z; [|exact Hreq].
  pose proof (authenticate_preserves c
                (after_request s (Get url params (headers_obj s) REQUEST_TIMEOUT))
                Hid Hh) as Hauth.
  destruct (authenticate _) as [[[]|e] s2]; cbn [snd] in Hauth |- *.
  - apply (preserves_trans c s _ _ Hreq).
    destruct Hauth as (Hid2 & Hh2 & new & Hlog & Hnew).
    apply (preserves_intro c _ _ new); try done.
    by apply carries_new_bearer.
  - by apply (preserves_trans c s _ _ Hreq).
Qed.

Lemma retry_loop_preserves (c : ByteWattBatteryMonitor) (attempts : list Z) (s : state) :
  same_identity c (self s) → carries c (headers_obj s) →
  preserves c s (snd (retry_loop attempts s)).
Proof.
  revert s. induction attempts as [|attempt rest IH]; intros s Hid Hh.
  - by apply preserves_refl.
  - rewrite retry_loop_cons.
    pose proof (fetch_battery_data_preserves c data_url data_params s Hid Hh) as Hfetch.
    destruct (fetch_battery_data data_url data_params s) as [[data|err] s1];
      cbn [snd] in Hfetch.
    + destruct (is_not_none data); [exact Hfetch|].
      apply (preserves_trans c s s1 _ Hfetch). apply IH; apply Hfetch.
    + destruct (attempt <? MAX_RETRIES - 1)%Z; [|exact Hfetch].
      apply (preserves_trans c s s1 _ Hfetch).
      apply (preserves_trans c s1 (after_sleep s1)).
      * destruct Hfetch as (Hid1 & Hh1 & _).
        apply (preserves_intro c _ _ [Sleep RETRY_DELAY]); try done.
        by apply Forall_singleton.
      * apply IH; apply Hfetch.
Qed.

Lemma get_battery_data_frame (s : state) :
  same_identity (self s) (self (snd (get_battery_data s)))
  ∧ ∃ new, log (snd (get_battery_data s)) = log s ++ new
           ∧ Forall (uses_credentials_of (self s)) new.
Proof.
  assert (∀ s1, same_identity (self s) (self s1) →
                (∃ new, log s1 = log s ++ new ∧ Forall (uses_credentials_of (self s)) new) →
                let s' := snd (retry_loop [0; 1; 2]%Z
                                 (State (self s1) (net s1) (standard_headers (self s1)) (log s1))) in
                same_identity (self s) (self s')
                ∧ ∃ new, log s' = log s ++ new ∧ Forall (uses_credentials_of (self s)) new)
    as Hloop.
  { intros s1 Hid (new & Hlog & Hnew).
    pose proof (retry_loop_preserves (self s) [0; 1; 2]%Z
                  (State (self s1) (net s1) (standard_headers (self s1)) (log s1))
                  Hid (standard_headers_carry _ _ Hid)) as (Hid' & Hh' & new' & Hlog' & Hnew').
    split; [done|]. exists (new ++ new'). split.
    - cbn [log] in Hlog'. by rewrite Hlog', Hlog, app_assoc.
    - by apply Forall_app. }
  rewrite get_battery_data_eq.
  destruct (truthy (access_token (self s))).
  - apply Hloop; [apply same_identity_refl|]. exists []. by rewrite app_nil_r.
  - destruct (authenticate_frame s) as ([tok Hself] & Hhead & Hlog & _).
    assert (same_identity (self s) (self (snd (authenticate s)))) as Hid
      by (rewrite Hself; apply same_identity_with_token, same_identity_refl).
    assert (Forall (uses_credentials_of (self s)) [login_request (self s)]) as Hnew
      by (apply Forall_singleton, login_request_uses, same_identity_refl).
    destruct (authenticate s) as [[[]|e] s1]; cbn [snd] in *.
    + apply Hloop; [done|]. by exists [login_request (self s)].
    + split; [done|]. by exists [login_request (self s)].
Qed.

Lemma fetch_battery_data_identity (url : string) (params : gmap string json) (s : state) :
  same_identity (self s) (self (snd (fetch_battery_data url params s))).
Proof.
  rewrite fetch_battery_data_eq. cbv zeta.
  destruct (net s) as [|[|status body] rest]; try apply same_identity_refl.
  destruct (status =? 401)%Z; [|apply same_identity_refl].
  destruct (authenticate_frame
              (after_request s (Get url params (headers_obj s) REQUEST_TIMEOUT)))
    as ([tok Hself] & _).
  destruct (authenticate _) as [[[]|e] s2]; cbn [snd self] in *;
    rewrite Hself; apply same_identity_with_token, same_identity_refl.
Qed.

(** C8: the timestamp is the clock reading at construction and the signature
    is computed from it there; [authenticate] changes nothing of the monitor
    but its token; [fetch_battery_data] and [get_battery_data] leave user
    name, password, timestamp and signature as they were, and every request
    [get_battery_data] sends, login or telemetry, carries that timestamp and
    that signature. *)
Theorem credentials_fixed_at_construction (s : state) :
  (∀ clock user pass interval,
      let c := __init__ clock user pass interval in
      auth_timestamp c = clock
      ∧ auth_signature c = generate_auth_signature clock
      ∧ username c = user ∧ password c = pass ∧ access_token c = JNull)
  ∧ ((∃ tok, self (snd (authenticate s)) = with_token (self s) tok)
     ∧ log (snd (authenticate s)) = log s ++ [login_request (self s)]
     ∧ uses_credentials_of (self s) (login_request (self s)))
  ∧ (∀ url params, same_identity (self s) (self (snd (fetch_battery_data url params s))))
  ∧ (same_identity (self s) (self (snd (get_battery_data s)))
     ∧ ∃ new, log (snd (get_battery_data s)) = log s ++ new
              ∧ Forall (uses_credentials_of (self s)) new).
Proof.
  split; [by intros|]. split; [|split].
  - destruct (authenticate_frame s) as (Htok & _ & Hlog & _).
    split; [done|]. split; [done|]. apply login_request_uses, same_identity_refl.
  - intros url params. apply fetch_battery_data_identity.
  - apply get_battery_data_frame.
Qed.

(** ** The coordinator (coordinator.py) and the scheduler *)

(** [_async_update_data] passes data through and rewraps an [UpdateFailed]. *)
Example async_update_data_wraps_failures :
  let transient := Response 200 (Some transient_body) in
  fst (_async_update_data (logged_in [transient; transient; transient]))
  = Raise (UpdateFailed
             "Error communicating with API: Network error code 9007 from Byte Watt API"
             (Some (UpdateFailed "Network error code 9007 from Byte Watt API" None)))
  ∧ fst (_async_update_data
           (logged_in [Response 200 (Some (JObj {[ "data" := JObj {[ "soc" := JInt 55 ]} ]}))]))
    = Ok (JObj {[ "soc" := JInt 55 ]}).
Proof. vm_compute. done. Qed.

Section SingleFlight.
Import RefreshScheduler.

Lemma run_cons (sch : scheduler) (a : action) (actions : list action) :
  run sch (a :: actions) = run (step sch a) actions.
Proof. reflexivity. Qed.

Lemma run_app (sch : scheduler) (l1 l2 : list action) :
  run sch (l1 ++ l2) = run (run sch l1) l2.
Proof. apply fold_left_app. Qed.

(** Requests that arrive while a fetch is in flight only join it. *)
Lemma run_joiners (sch : scheduler) (r : result json) (waiting joiners : list nat) :
  in_flight sch = Some (r, waiting) →
  run sch (map RefreshNow joiners) =
  Scheduler (client sch) (Some (r, waiting ++ joiners)) (cache sch)
            (fetches sch) (delivered sch).
Proof.
  revert sch waiting. induction joiners as [|c joiners IH]; intros sch waiting Hfl.
  - destruct sch. simpl in *. by rewrite app_nil_r, Hfl.
  - cbn [map]. rewrite run_cons. unfold step. rewrite Hfl.
    rewrite (IH _ (waiting ++ [c])); [|reflexivity].
    cbn [client cache fetches delivered]. by rewrite <- app_assoc.
Qed.

Lemma step_start (sch : scheduler) (c : nat) :
  in_flight sch = None →
  step sch (RefreshNow c) =
  Scheduler (snd (_async_update_data (client sch)))
            (Some (fst (_async_update_data (client sch)), [c]))
            (cache sch) (S (fetches sch)) (delivered sch).
Proof.
  intros Hidle. unfold step. rewrite Hidle.
  by destruct (_async_update_data (client sch)).
Qed.

(** C9: on an idle scheduler, a refresh request followed by any number of
    further requests while its fetch is in flight: one fetch is started, the
    monitor and network are those after one call of [_async_update_data],
    and every caller receives the outcome of that call. *)
Theorem single_flight (sch : scheduler) (first : nat) (joiners : list nat) :
  in_flight sch = None →
  let sch' := run sch (RefreshNow first :: map RefreshNow joiners ++ [FetchDone]) in
  let outcome := _async_update_data (client sch) in
  fetches sch' = S (fetches sch)
  ∧ client sch' = snd outcome
  ∧ delivered sch' = delivered sch ++ map (fun c => (c, fst outcome)) (first :: joiners)
  ∧ in_flight sch' = None.
Proof.
  intros Hidle sch' outcome. subst sch' outcome.
  rewrite run_cons, run_app, (step_start _ _ Hidle).
  rewrite (run_joiners _ (fst (_async_update_data (client sch))) [first]); [|reflexivity].
  by destruct (fst (_async_update_data (client sch))).
Qed.

End SingleFlight.

(** Two requests while the fetch started by a first one is in flight. *)
Lemma single_flight_witness :
  let sch := RefreshScheduler.Scheduler
               (fresh [Response 200 (Some (login_body "abc123"));
                       Response 200 (Some (JObj {[ "data" := JObj {[ "soc" := JInt 55 ]} ]}))])
               None (RefreshScheduler.RefreshState None None) 0 [] in
  let sch' := RefreshScheduler.run sch
                (RefreshScheduler.RefreshNow 0
                 :: map RefreshScheduler.RefreshNow [1; 2] ++ [RefreshScheduler.FetchDone]) in
  let outcome := _async_update_data (RefreshScheduler.client sch) in
  RefreshScheduler.fetches sch' = S (RefreshScheduler.fetches sch)
  ∧ RefreshScheduler.client sch' = snd outcome
  ∧ RefreshScheduler.delivered sch'
    = RefreshScheduler.delivered sch ++ map (fun c => (c, fst outcome)) [0; 1; 2]
  ∧ RefreshScheduler.in_flight sch' = None.
Proof.
  apply (single_flight
           (RefreshScheduler.Scheduler
              (fresh [Response 200 (Some (login_body "abc123"));
                      Response 200 (Some (JObj {[ "data" := JObj {[ "soc" := JInt 55 ]} ]}))])
              None (RefreshScheduler.RefreshState None None) 0 [])
           0 [1; 2]).
  reflexivity.
Defined.

Example single_flight_scenario :
  let sch := RefreshScheduler.Scheduler
               (fresh [Response 200 (Some (login_body "abc123"));
                       Response 200 (Some (JObj {[ "data" := JObj {[ "soc" := JInt 55 ]} ]}));
                       Response 200 (Some (JObj {[ "data" := JObj {[ "soc" := JInt 56 ]} ]}))])
               None (RefreshScheduler.RefreshState None None) 0 [] in
  let sch' := RefreshScheduler.run sch
                [RefreshScheduler.RefreshNow 0; RefreshScheduler.RefreshNow 1;
                 RefreshScheduler.RefreshNow 2; RefreshScheduler.FetchDone] in
  RefreshScheduler.delivered sch'
  = [(0, Ok (JObj {[ "soc" := JInt 55 ]})); (1, Ok (JObj {[ "soc" := JInt 55 ]}));
     (2, Ok (JObj {[ "soc" := JInt 55 ]}))]
  ∧ RefreshScheduler.currentSnapshot sch' = Some (JObj {[ "soc" := JInt 55 ]})
  ∧ length (filter is_get (log (RefreshScheduler.client sch'))) = 1.
Proof. vm_compute. done. Qed.

(** A refresh that fails keeps the last snapshot and records the error. *)
Example failed_refresh_keeps_snapshot :
  let sch := RefreshScheduler.Scheduler
               (logged_in [Response 200 (Some (JObj {[ "data" := JObj {[ "soc" := JInt 55 ]} ]}))])
               None (RefreshScheduler.RefreshState None None) 0 [] in
  let sch' := RefreshScheduler.run sch
                [RefreshScheduler.RefreshNow 0; RefreshScheduler.FetchDone;
                 RefreshScheduler.RefreshNow 1; RefreshScheduler.FetchDone] in
  RefreshScheduler.currentSnapshot sch' = Some (JObj {[ "soc" := JInt 55 ]})
  ∧ RefreshScheduler.fetches sch' = 2
  ∧ RefreshScheduler.lastError (RefreshScheduler.cache sch')
    = Some (UpdateFailed "Error communicating with API: Error fetching data from Byte Watt API"
              (Some (UpdateFailed "Error fetching data from Byte Watt API" (Some ClientError)))).
Proof. vm_compute. done. Qed.

(** ** The sensors (sensor.py) *)

Section SensorProperties.

Variable float_of_str : string -> result float.

(** C7: the readings of the scenario snapshot, as the sensors of
    [async_setup_entry] compute them: grid phase 1 feed-in 120.5, grid phase
    1 consumption 0, battery charging 50, PV generation 100, battery
    discharging 30; the snapshot is what the first refresh of a fresh monitor
    returns when the login answers with a token and the telemetry answers
    with this data. *)
Theorem scenario_readings :
  let data := JObj scenario_snapshot in
  reading float_of_str "Grid Phase 1 Feed-In" data = Some (Ok (JFloat 120.5))
  ∧ reading float_of_str "Grid Phase 1 Consumption" data = Some (Ok (JInt 0))
  ∧ reading float_of_str "Battery Charging" data = Some (Ok (JFloat 50))
  ∧ reading float_of_str "PV Generation" data = Some (Ok (JFloat 100))
  ∧ reading float_of_str "Battery Discharging" data = Some (Ok (JFloat 30))
  ∧ fst (_async_update_data
           (fresh [Response 200 (Some (login_body "abc123"));
                   Response 200 (Some (JObj {[ "data" := data ]}))]))
    = Ok data.
Proof. vm_compute. repeat split. Qed.

Lemma get_power_value_eq (data : gmap string json) (key : string) :
  get_power_value float_of_str data key =
  match data !! key with
  | None | Some JNull => Ok 0%float
  | Some value => py_float float_of_str value
  end.
Proof.
  unfold get_power_value.
  destruct (data !! key) as [[]|]; reflexivity.
Qed.

Lemma get_power_value_absent (data : gmap string json) (key : string) :
  absent data key → get_power_value float_of_str data key = Ok 0%float.
Proof. intros [H|H]; by rewrite get_power_value_eq, H. Qed.

(** Writing the float zero into an absent field changes no power value. *)
Lemma get_power_value_fill (data : gmap string json) (key k : string) :
  absent data key →
  get_power_value float_of_str (<[key := JFloat 0]> data) k
  = get_power_value float_of_str data k.
Proof.
  intros Habs. destruct (decide (key = k)) as [<-|Hne].
  - rewrite (get_power_value_absent _ _ Habs).
    by rewrite get_power_value_eq, lookup_insert_eq.
  - by rewrite !get_power_value_eq, lookup_insert_ne.
Qed.

(** The derived readings see the snapshot through [get_power_value] only. *)
Lemma derived_ext (d1 d2 : gmap string json) (name : string) (f : formula) :
  (∀ k, get_power_value float_of_str d1 k = get_power_value float_of_str d2 k) →
  (name, f) ∈ derived float_of_str → f d1 = f d2.
Proof.
  intros Hext Hin.
  assert (∀ prefix lo hi, sum_fields float_of_str d1 prefix lo hi
                          = sum_fields float_of_str d2 prefix lo hi) as Hsum.
  { intros prefix lo hi. unfold sum_fields. do 2 f_equal.
    apply map_ext. intros i. apply Hext. }
  unfold derived in Hin.
  repeat (apply elem_of_cons in Hin as [[= -> ->]|Hin];
          [unfold battery_charging, battery_discharging, pv_generation, grid_feed_in,
             grid_consumption; unfold clamp_negative, clamp_positive;
           by rewrite ?Hext, ?Hsum|]).
  by apply elem_of_nil in Hin.
Qed.

(** C10: [get_power_value] is [float(value)] for a field that is present
    and not [None], and [0.0] otherwise; so every derived reading is the same
    on a snapshot with an absent field as on the snapshot with the float zero
    in that field, and on a snapshot where all fields are absent every
    derived reading is the number [0.0]: none raises and none is [None]. *)
Theorem get_power_value_absent_is_zero (data : gmap string json) (key : string) :
  get_power_value float_of_str data key
  = match data !! key with
    | None | Some JNull => Ok 0%float
    | Some value => py_float float_of_str value
    end
  ∧ (absent data key →
     ∀ name f, (name, f) ∈ derived float_of_str → f (<[key := JFloat 0]> data) = f data)
  ∧ ((∀ k, absent data k) →
     ∀ name f, (name, f) ∈ derived float_of_str → f data = Ok (JFloat 0)).
Proof.
  split; [apply get_power_value_eq|]. split.
  - intros Habs name f Hin. apply (derived_ext _ _ name); [|done].
    intros k. by apply get_power_value_fill.
  - intros Habs name f Hin.
    rewrite (derived_ext data ∅ name f); [|intros k|done].
    + unfold derived in Hin.
      repeat (apply elem_of_cons in Hin as [[= -> ->]|Hin]; [by vm_compute|]).
      by apply elem_of_nil in Hin.
    + rewrite (get_power_value_absent data k (Habs k)).
      by rewrite get_power_value_eq, lookup_empty.
Qed.

End SensorProperties.

Example readings_without_fields :
  let float_of_str (_ : string) : result float := Raise ValueError in
  map (fun nf => native_value (snd nf) (JObj {[ "soc" := JInt 55 ]})) (derived float_of_str)
  = repeat (Ok (JFloat 0)) 11
  ∧ map (fun nf => native_value (snd nf) (JObj {[ "pbat" := JNull; "ppv1" := JNull ]}))
        (derived float_of_str)
    = repeat (Ok (JFloat 0)) 11
  ∧ get_power_value float_of_str {[ "pbat" := JInt (-50) ]} "pbat" = Ok (-50)%float
  ∧ get_power_value float_of_str {[ "pbat" := JList [] ]} "pbat" = Raise TypeError
  ∧ native_value (battery_charging float_of_str) (JObj ∅) = Ok JNull.
Proof. vm_compute. repeat split. Qed.

(** * Further properties *)

(** ** The monitor: what can be raised *)

Lemma authenticate_raises_auth_error (s : state) (e : exn) :
  fst (authenticate s) = Raise e → ∃ cause, e = auth_error cause.
Proof.
  rewrite authenticate_eq. cbv zeta.
  destruct (net s) as [|[|status [body|]] rest]; try (intros [= <-]; by eexists).
  destruct (login_token body) as [tok|e']; [discriminate|].
  intros [= <-]. by eexists.
Qed.

Lemma retry_loop_raises_update_failed (attempts : list Z) (s : state) (e : exn) :
  fst (retry_loop attempts s) = Raise e → ∃ msg cause, e = UpdateFailed msg cause.
Proof.
  revert s. induction attempts as [|attempt rest IH]; intros s; [discriminate|].
  rewrite retry_loop_cons.
  destruct (fetch_battery_data data_url data_params s) as [[data|err] s1].
  - destruct (is_not_none data); [discriminate | apply IH].
  - destruct (attempt <? MAX_RETRIES - 1)%Z; [apply IH|].
    intros [= <-]. destruct err; by do 2 eexists.
Qed.

(** X1: whatever the network answers, [get_battery_data] raises nothing but
    [UpdateFailed]: the login's error before the loop, or on the last attempt
    the attempt's own [UpdateFailed] or the wrapping of any other exception. *)
Theorem get_battery_data_raises_update_failed (s : state) (e : exn) :
  fst (get_battery_data s) = Raise e → ∃ msg cause, e = UpdateFailed msg cause.
Proof.
  rewrite get_battery_data_eq.
  destruct (truthy (access_token (self s))).
  - apply retry_loop_raises_update_failed.
  - destruct (authenticate s) as [[[]|e'] s1] eqn:Hauth.
    + apply retry_loop_raises_update_failed.
    + intros [= <-].
      destruct (authenticate_raises_auth_error s e') as [cause ->]; [by rewrite Hauth|].
      by do 2 eexists.
Qed.

Lemma get_battery_data_raises_update_failed_witness :
  let e := UpdateFailed "Error fetching data from Byte Watt API" (Some ClientError) in
  fst (get_battery_data (logged_in [])) = Raise e ∧ ∃ msg cause, e = UpdateFailed msg cause.
Proof.
  split; [reflexivity|].
  apply (get_battery_data_raises_update_failed (logged_in [])). reflexivity.
Defined.

(** X2: [_async_update_data] returns what [get_battery_data] returns and
    leaves the same state; when [get_battery_data] raises, it raises an
    [UpdateFailed] whose message is "Error communicating with API: " followed
    by the message of the monitor's [UpdateFailed], chained from it: the
    branch that would pass another exception on is never taken. *)
Theorem async_update_data_outcome (s : state) :
  snd (_async_update_data s) = snd (get_battery_data s)
  ∧ match fst (get_battery_data s) with
    | Ok data => fst (_async_update_data s) = Ok data
    | Raise e =>
        ∃ msg cause,
          e = UpdateFailed msg cause
          ∧ fst (_async_update_data s)
            = Raise (UpdateFailed ("Error communicating with API: " +:+ msg) (Some e))
    end.
Proof.
  assert (∀ e, fst (get_battery_data s) = Raise e → ∃ msg cause, e = UpdateFailed msg cause)
    as Hraise.
  { intros e. rewrite get_battery_data_eq.
    destruct (truthy (access_token (self s))); [apply retry_loop_raises_update_failed|].
    destruct (authenticate s) as [[[]|e'] s1] eqn:Hauth;
      [apply retry_loop_raises_update_failed|].
    intros [= <-].
    destruct (authenticate_raises_auth_error s e') as [cause ->]; [by rewrite Hauth|].
    by do 2 eexists. }
  unfold _async_update_data, try_except.
  destruct (get_battery_data s) as [[data|e] s1]; cbn [fst snd] in *; [done|].
  destruct (Hraise e eq_refl) as (msg & cause & ->).
  split; [done|]. by exists msg, cause.
Qed.

(** ** The monitor: what a call costs *)

Lemma within_app (g1 p1 z1 g2 p2 z2 : nat) (l1 l2 : list event) :
  within g1 p1 z1 l1 → within g2 p2 z2 l2 →
  within (g1 + g2) (p1 + p2) (z1 + z2) (l1 ++ l2).
Proof.
  intros (Hg1 & Hp1 & Hz1 & Hs1) (Hg2 & Hp2 & Hz2 & Hs2).
  unfold within. rewrite !List.filter_app, !length_app.
  split_and!; try lia. by apply Forall_app.
Qed.

Lemma within_mono (g p z g' p' z' : nat) (l : list event) :
  g ≤ g' → p ≤ p' → z ≤ z' → within g p z l → within g' p' z' l.
Proof. intros ? ? ? (? & ? & ? & ?). unfold within. split_and!; try lia. done. Qed.

Lemma spends_refl (s : state) : spends 0 0 0 s s.
Proof.
  exists [], []. rewrite app_nil_r. unfold within. split_and!; simpl; try lia; try done.
Qed.

Lemma spends_trans (g1 p1 z1 g2 p2 z2 : nat) (s1 s2 s3 : state) :
  spends g1 p1 z1 s1 s2 → spends g2 p2 z2 s2 s3 →
  spends (g1 + g2) (p1 + p2) (z1 + z2) s1 s3.
Proof.
  intros (new1 & used1 & Hl1 & Hw1 & Hn1 & Hu1) (new2 & used2 & Hl2 & Hw2 & Hn2 & Hu2).
  exists (new1 ++ new2), (used1 ++ used2). split_and!.
  - by rewrite Hl2, Hl1, app_assoc.
  - by apply within_app.
  - by rewrite Hn1, Hn2, app_assoc.
  - rewrite length_app. lia.
Qed.

Lemma spends_mono (g p z g' p' z' : nat) (s s' : state) :
  g ≤ g' → p ≤ p' → z ≤ z' → spends g p z s s' → spends g' p' z' s s'.
Proof.
  intros ? ? ? (new & used & ? & ? & ? & ?). exists new, used.
  split_and!; try done; [by eapply within_mono | lia].
Qed.

(** One request: one event, at most one answer taken. *)
Lemma spends_request (s : state) (e : event) :
  is_sleep e = false →
  spends (if is_get e then 1 else 0) (if is_post e then 1 else 0) 0 s (after_request s e).
Proof.
  intros Hsl. exists [e], (firstn 1 (net s)). unfold within. split_and!; try done.
  - simpl. destruct (is_get e); simpl; lia.
  - simpl. destruct (is_post e); simpl; lia.
  - simpl. by rewrite Hsl.
  - apply Forall_singleton. by rewrite Hsl.
  - simpl. by destruct (net s).
  - destruct e; try discriminate; destruct (net s); simpl; lia.
Qed.

Lemma spends_sleep (s : state) : spends 0 0 1 s (after_sleep s).
Proof.
  exists [Sleep RETRY_DELAY], []. unfold within. split_and!; simpl; try lia; try done.
  by apply Forall_singleton.
Qed.

Lemma authenticate_spends (s : state) : spends 0 1 0 s (snd (authenticate s)).
Proof.
  destruct (authenticate_frame s) as (_ & _ & Hlog & Hnet).
  exists [login_request (self s)], (firstn 1 (net s)). unfold within.
  split_and!; simpl; try lia.
  - done.
  - by apply Forall_singleton.
  - rewrite Hnet. by destruct (net s).
  - destruct (net s); simpl; lia.
Qed.

Lemma fetch_battery_data_spends (url : string) (params : gmap string json) (s : state) :
  spends 1 1 0 s (snd (fetch_battery_data url params s)).
Proof.
  assert (spends 1 0 0 s (after_request s (Get url params (headers_obj s) REQUEST_TIMEOUT)))
    as Hreq by (by apply (spends_request s (Get _ _ _ _))).
  assert (spends 1 1 0 s (after_request s (Get url params (headers_obj s) REQUEST_TIMEOUT)))
    as Hreq' by (eapply spends_mono; [| | |exact Hreq]; lia).
  rewrite fetch_battery_data_eq. cbv zeta.
  destruct (net s) as [|[|status body] rest]; try exact Hreq'.
  destruct (status =? 401)%Z; [|exact Hreq'].
  pose proof (authenticate_spends
                (after_request s (Get url params (headers_obj s) REQUEST_TIMEOUT))) as Hauth.
  destruct (authenticate _) as [[[]|e] s2]; cbn [snd] in *.
  - apply (spends_trans 1 0 0 0 1 0 s _ _ Hreq).
    destruct Hauth as (new & used & ? & ? & ? & ?). by exists new, used.
  - by apply (spends_trans 1 0 0 0 1 0 s _ _ Hreq).
Qed.

Lemma retry_loop_spends (attempts : list Z) (s : state) :
  spends (length attempts) (length attempts)
         (length (List.filter (fun a => a <? MAX_RETRIES - 1)%Z attempts))
         s (snd (retry_loop attempts s)).
Proof.
  revert s. induction attempts as [|attempt rest IH]; intros s; [apply spends_refl|].
  rewrite retry_loop_cons.
  pose proof (fetch_battery_data_spends data_url data_params s) as Hfetch.
  destruct (fetch_battery_data data_url data_params s) as [[data|err] s1]; cbn [snd] in *.
  - destruct (is_not_none data).
    + eapply spends_mono; [| | |exact Hfetch]; simpl; lia.
    + eapply spends_mono; [| | |exact (spends_trans _ _ _ _ _ _ _ _ _ Hfetch (IH s1))];
        simpl; try lia. destruct (attempt <? MAX_RETRIES - 1)%Z; simpl; lia.
  - cbn [List.filter]. destruct (attempt <? MAX_RETRIES - 1)%Z.
    + eapply spends_mono;
        [| | |exact (spends_trans _ _ _ _ _ _ _ _ _ Hfetch
                       (spends_trans _ _ _ _ _ _ _ _ _ (spends_sleep s1) (IH _)))];
        simpl; lia.
    + eapply spends_mono; [| | |exact Hfetch]; simpl; lia.
Qed.

(** X3: whatever the network answers, one call of [get_battery_data] sends
    at most 3 telemetry requests and at most 4 logins (one before the loop,
    one per attempt), sleeps at most twice, each time [RETRY_DELAY] seconds,
    and takes at most 7 answers, from the front. *)
Theorem get_battery_data_budget (s : state) :
  ∃ new used,
    log (snd (get_battery_data s)) = log s ++ new
    ∧ net s = used ++ net (snd (get_battery_data s))
    ∧ length (List.filter is_get new) ≤ 3
    ∧ length (List.filter is_post new) ≤ 4
    ∧ length (List.filter is_sleep new) ≤ 2
    ∧ Forall (fun e => is_sleep e = true → e = Sleep 2) new
    ∧ length used ≤ 7.
Proof.
  assert (spends 3 4 2 s (snd (get_battery_data s)))
    as (new & used & Hlog & (Hg & Hp & Hz & Hs) & Hnet & Hused).
  { assert (∀ s1, spends 0 1 0 s s1 →
                  spends 3 4 2 s
                    (snd (retry_loop [0; 1; 2]%Z
                            (State (self s1) (net s1) (standard_headers (self s1)) (log s1)))))
      as Hloop.
    { intros s1 H1.
      pose proof (retry_loop_spends [0; 1; 2]%Z
                    (State (self s1) (net s1) (standard_headers (self s1)) (log s1))) as H2.
      assert (spends 0 1 0 s (State (self s1) (net s1) (standard_headers (self s1)) (log s1)))
        as H1' by (destruct H1 as (new & used & ? & ? & ? & ?); by exists new, used).
      eapply spends_mono; [| | |exact (spends_trans _ _ _ _ _ _ _ _ _ H1' H2)]; simpl; lia. }
    rewrite get_battery_data_eq.
    destruct (truthy (access_token (self s))).
    - apply Hloop. eapply spends_mono; [| | |apply spends_refl]; lia.
    - pose proof (authenticate_spends s) as Hauth.
      destruct (authenticate s) as [[[]|e] s1]; cbn [snd] in *.
      + by apply Hloop.
      + eapply spends_mono; [| | |exact Hauth]; lia. }
  exists new, used. by split_and!.
Qed.

(** ** The monitor: when it logs in *)

Lemma fetch_battery_data_not_401 (url : string) (params : gmap string json) (s : state) :
  no_401 (net s) →
  snd (fetch_battery_data url params s)
  = after_request s (Get url params (headers_obj s) REQUEST_TIMEOUT).
Proof.
  intros Hno. rewrite fetch_battery_data_eq. cbv zeta.
  destruct (net s) as [|[|status body] rest]; try reflexivity.
  apply Forall_cons in Hno as [Hst _]. apply Z.eqb_neq in Hst. by rewrite Hst.
Qed.

Lemma no_401_tail (answers : list http_result) : no_401 answers → no_401 (tl answers).
Proof. destruct answers; [done|]. by intros [_ ?]%Forall_cons. Qed.

Lemma retry_loop_without_401 (attempts : list Z) (s : state) :
  no_401 (net s) →
  self (snd (retry_loop attempts s)) = self s
  ∧ headers_obj (snd (retry_loop attempts s)) = headers_obj s
  ∧ ∃ new, log (snd (retry_loop attempts s)) = log s ++ new
           ∧ Forall (fun e => is_post e = false) new.
Proof.
  revert s. induction attempts as [|attempt rest IH]; intros s Hno.
  - split_and!; try done. exists []. by rewrite app_nil_r.
  - rewrite retry_loop_cons.
    pose proof (fetch_battery_data_not_401 data_url data_params s Hno) as Hfetch.
    assert (∀ s2, self s2 = self s → headers_obj s2 = headers_obj s → no_401 (net s2) →
                  (∃ new, log s2 = log s ++ new ∧ Forall (fun e => is_post e = false) new) →
                  self (snd (retry_loop rest s2)) = self s
                  ∧ headers_obj (snd (retry_loop rest s2)) = headers_obj s
                  ∧ ∃ new, log (snd (retry_loop rest s2)) = log s ++ new
                           ∧ Forall (fun e => is_post e = false) new) as Hrest.
    { intros s2 Hself Hhead Hno2 (new & Hlog & Hnew).
      destruct (IH s2 Hno2) as (Hself' & Hhead' & new' & Hlog' & Hnew').
      split_and!; try congruence.
      exists (new ++ new'). split; [by rewrite Hlog', Hlog, app_assoc | by apply Forall_app]. }
    assert (∃ new, log (after_request s (Get data_url data_params (headers_obj s) REQUEST_TIMEOUT))
                   = log s ++ new ∧ Forall (fun e => is_post e = false) new) as Hone
      by (eexists; split; [reflexivity | by apply Forall_singleton]).
    destruct (fetch_battery_data data_url data_params s) as [[data|err] s1];
      cbn [snd] in Hfetch; subst s1.
    + destruct (is_not_none data); [by split_and! |].
      apply Hrest; try done. by apply no_401_tail.
    + destruct (attempt <? MAX_RETRIES - 1)%Z; [|by split_and!].
      apply Hrest; try done; [by apply no_401_tail|].
      destruct Hone as (new & Hlog & Hnew).
      exists (new ++ [Sleep RETRY_DELAY]). cbn [log after_request] in *.
      split; [by rewrite Hlog, app_assoc|]. apply Forall_app. split; [done|].
      by apply Forall_singleton.
Qed.

(** X4: a monitor that holds a token and meets no 401 never logs in: the
    call sends no login request and leaves the monitor, token included, as
    it was. *)
Theorem token_reused_without_401 (s : state) :
  truthy (access_token (self s)) = true → no_401 (net s) →
  self (snd (get_battery_data s)) = self s
  ∧ ∃ new, log (snd (get_battery_data s)) = log s ++ new
           ∧ Forall (fun e => is_post e = false) new.
Proof.
  intros Htok Hno. rewrite get_battery_data_eq, Htok.
  destruct (retry_loop_without_401 [0; 1; 2]%Z
              (State (self s) (net s) (standard_headers (self s)) (log s)) Hno)
    as (Hself & _ & Hnew).
  by split.
Qed.

Lemma token_reused_without_401_witness :
  let s := logged_in [Response 500 None; Transport_error;
                      Response 200 (Some (JObj {[ "data" := JObj {[ "soc" := JInt 55 ]} ]}))] in
  self (snd (get_battery_data s)) = self s
  ∧ ∃ new, log (snd (get_battery_data s)) = log s ++ new
           ∧ Forall (fun e => is_post e = false) new.
Proof.
  apply (token_reused_without_401
           (logged_in [Response 500 None; Transport_error;
                       Response 200 (Some (JObj {[ "data" := JObj {[ "soc" := JInt 55 ]} ]}))])).
  - reflexivity.
  - unfold no_401. by repeat constructor.
Defined.

(** X5: the login before the loop is not retried.  A monitor without a token
    whose login fails sends that one login request and raises its
    [UpdateFailed]: no telemetry request, no sleep, and the answers after
    the first stay. *)
Theorem first_login_failure_is_final (s : state) (cause : exn) :
  truthy (access_token (self s)) = false →
  login_answer (net s) = Raise cause →
  get_battery_data s
  = (Raise (UpdateFailed "Error authenticating with Byte Watt API" (Some cause)),
     State (self s) (tl (net s)) (headers_obj s) (log s ++ [login_request (self s)])).
Proof.
  intros Htok Hfail. rewrite get_battery_data_eq, Htok.
  by rewrite (authenticate_raises s cause Hfail).
Qed.

Lemma first_login_failure_is_final_witness :
  let s := fresh [Response 200 (Some (JObj ∅));
                  Response 200 (Some (JObj {[ "data" := JObj {[ "soc" := JInt 55 ]} ]}))] in
  get_battery_data s
  = (Raise (UpdateFailed "Error authenticating with Byte Watt API" (Some (KeyError "data"))),
     State (self s) (tl (net s)) (headers_obj s) (log s ++ [login_request (self s)])).
Proof.
  apply (first_login_failure_is_final
           (fresh [Response 200 (Some (JObj ∅));
                   Response 200 (Some (JObj {[ "data" := JObj {[ "soc" := JInt 55 ]} ]}))])
           (KeyError "data")); reflexivity.
Defined.

(** X6: an attempt answered 401 whose login then fails is a failed attempt
    like any other: the monitor and the shared headers are as before, so the
    next attempt carries the old token; the loop sleeps and goes on while
    attempts remain, and raises the login's [UpdateFailed] on the last. *)
Theorem failed_relogin_is_a_failed_attempt (s : state) (body : option json)
    (answers : list http_result) (cause : exn) (attempt : Z) (rest : list Z) :
  net s = Response 401 body :: answers →
  login_answer answers = Raise cause →
  let s2 := State (self s) (tl answers) (headers_obj s)
                  (log s ++ [Get data_url data_params (headers_obj s) REQUEST_TIMEOUT;
                             login_request (self s)]) in
  retry_loop (attempt :: rest) s =
  if (attempt <? MAX_RETRIES - 1)%Z
  then retry_loop rest (State (self s2) (net s2) (headers_obj s2) (log s2 ++ [Sleep 2]))
  else (Raise (UpdateFailed "Error authenticating with Byte Watt API" (Some cause)), s2).
Proof.
  intros Hnet Hfail s2.
  rewrite retry_loop_cons, fetch_battery_data_eq, Hnet. cbv zeta.
  change (401 =? 401)%Z with true. cbv iota.
  rewrite (authenticate_raises _ cause);
    [|unfold after_request; cbn [net]; by rewrite Hnet].
  unfold after_request. cbn [self net headers_obj log]. rewrite Hnet. cbn [tl]. subst s2.
  cbn [self net headers_obj log]. by rewrite <- !app_assoc.
Qed.

Lemma failed_relogin_is_a_failed_attempt_witness :
  let s := logged_in [Response 401 None; Response 200 (Some (JObj ∅))] in
  let s2 := State (self s) [] (headers_obj s)
                  (log s ++ [Get data_url data_params (headers_obj s) REQUEST_TIMEOUT;
                             login_request (self s)]) in
  retry_loop [2%Z] s =
  (Raise (UpdateFailed "Error authenticating with Byte Watt API" (Some (KeyError "data"))), s2).
Proof.
  apply (failed_relogin_is_a_failed_attempt
           (logged_in [Response 401 None; Response 200 (Some (JObj ∅))])
           None [Response 200 (Some (JObj ∅))] (KeyError "data") 2 []); reflexivity.
Defined.

(** ** The monitor: the retry loop on failing answers *)

Lemma retry_loop_failing_answer (attempt : Z) (rest : list Z) (s : state)
    (r : http_result) (more : list http_result) :
  net s = r :: more → failing r = true →
  retry_loop (attempt :: rest) s =
  let s1 := State (self s) more (headers_obj s) (log s ++ [data_request (headers_obj s)]) in
  if (attempt <? MAX_RETRIES - 1)%Z then retry_loop rest (after_sleep s1)
  else (Raise (surfaced (failure_of r)), s1).
Proof.
  intros Hnet Hfail. destruct r as [|status body].
  - rewrite retry_loop_cons, fetch_battery_data_eq, Hnet. cbv zeta.
    unfold after_request. rewrite Hnet. reflexivity.
  - cbn [failing] in Hfail. apply andb_true_iff in Hfail as [Hst Hres].
    apply negb_true_iff, Z.eqb_neq in Hst.
    cbn [failure_of]. destruct (attempt_result body) as [v|e] eqn:He; [discriminate|].
    rewrite (retry_loop_failed_attempt _ _ _ _ _ _ _ Hnet Hst He).
    cbv zeta. unfold after_request. by rewrite Hnet.
Qed.

Lemma retry_loop_data_answer (attempt : Z) (rest : list Z) (s : state) (status : Z)
    (m d : gmap string json) (more : list http_result) :
  net s = Response status (Some (JObj m)) :: more → status ≠ 401%Z →
  eq_9007 (default JNull (m !! "code")) = false →
  m !! "data" = Some (JObj d) → 0 < size d →
  retry_loop (attempt :: rest) s =
  (Ok (JObj d), State (self s) more (headers_obj s) (log s ++ [data_request (headers_obj s)])).
Proof.
  intros Hnet Hst Hcode Hdata Hsize.
  rewrite (retry_loop_good_attempt _ _ _ _ _ _ (JObj d) Hnet Hst).
  - unfold after_request. by rewrite Hnet.
  - simpl. unfold classify. rewrite Hcode, Hdata. by rewrite bool_decide_true.
Qed.

(** X7: after at most two failing answers (transport failure, undecodable
    body, error code 9007, unexpected format), an answer with data is
    returned: one telemetry request per answer, a sleep of 2 seconds after
    each failure, the same headers on every request, no login, the monitor
    unchanged, the later answers left. *)
Theorem retries_until_data (s : state) (fails : list http_result) (status : Z)
    (m d : gmap string json) (more : list http_result) :
  truthy (access_token (self s)) = true →
  length fails ≤ 2 → forallb failing fails = true →
  net s = fails ++ Response status (Some (JObj m)) :: more →
  status ≠ 401%Z → eq_9007 (default JNull (m !! "code")) = false →
  m !! "data" = Some (JObj d) → 0 < size d →
  let h := standard_headers (self s) in
  let get := Get data_url data_params h REQUEST_TIMEOUT in
  get_battery_data s =
  (Ok (JObj d),
   State (self s) more h (log s ++ flat_map (fun _ => [get; Sleep 2]) fails ++ [get])).
Proof.
  intros Htok Hlen Hfails Hnet Hst Hcode Hdata Hsize h get.
  rewrite get_battery_data_eq, Htok, Hnet.
  destruct fails as [|r1 [|r2 [|r3 fails]]]; [| | |simpl in Hlen; lia];
    cbn [forallb] in Hfails; repeat (apply andb_true_iff in Hfails as [? Hfails]);
    cbn [app].
  - rewrite (retry_loop_data_answer _ _ _ status m d more); try done.
  - erewrite (retry_loop_failing_answer _ _ _ r1); [|reflexivity|done].
    simpl (_ <? _)%Z. cbv zeta.
    rewrite (retry_loop_data_answer _ _ _ status m d more); try done.
    unfold after_sleep, data_request. simpl. by rewrite <- !app_assoc.
  - erewrite (retry_loop_failing_answer _ _ _ r1); [|reflexivity|done].
    simpl (_ <? _)%Z. cbv zeta.
    erewrite (retry_loop_failing_answer _ _ _ r2); [|reflexivity|done].
    simpl (_ <? _)%Z. cbv zeta.
    rewrite (retry_loop_data_answer _ _ _ status m d more); try done.
    unfold after_sleep, data_request. simpl. by rewrite <- !app_assoc.
Qed.

Lemma retries_until_data_witness :
  let s := logged_in [Transport_error; Response 200 (Some transient_body);
                      Response 200 (Some (JObj {[ "data" := JObj {[ "soc" := JInt 55 ]} ]}));
                      Response 200 None] in
  let h := standard_headers (self s) in
  let get := Get data_url data_params h REQUEST_TIMEOUT in
  get_battery_data s =
  (Ok (JObj {[ "soc" := JInt 55 ]}),
   State (self s) [Response 200 None] h (log s ++ [get; Sleep 2; get; Sleep 2; get])).
Proof.
  apply (retries_until_data
           (logged_in [Transport_error; Response 200 (Some transient_body);
                       Response 200 (Some (JObj {[ "data" := JObj {[ "soc" := JInt 55 ]} ]}));
                       Response 200 None])
           [Transport_error; Response 200 (Some transient_body)] 200
           {[ "data" := JObj {[ "soc" := JInt 55 ]} ]} {[ "soc" := JInt 55 ]}
           [Response 200 None]);
    first [ reflexivity | discriminate | (vm_compute; lia) ].
Defined.

(** X8: three failing answers of whatever kind exhaust the attempts: three
    telemetry requests, two sleeps, and the error of the third attempt is
    raised, as it is when it is an [UpdateFailed] and otherwise wrapped in
    [UpdateFailed("Error fetching data from Byte Watt API")]; the errors of
    the first two attempts are dropped. *)
Theorem three_failures_raise_the_last (s : state) (r1 r2 r3 : http_result)
    (more : list http_result) :
  truthy (access_token (self s)) = true →
  net s = r1 :: r2 :: r3 :: more →
  failing r1 = true → failing r2 = true → failing r3 = true →
  let h := standard_headers (self s) in
  let get := Get data_url data_params h REQUEST_TIMEOUT in
  get_battery_data s =
  (Raise (match failure_of r3 with
          | UpdateFailed msg cause => UpdateFailed msg cause
          | e => UpdateFailed "Error fetching data from Byte Watt API" (Some e)
          end),
   State (self s) more h (log s ++ [get; Sleep 2; get; Sleep 2; get])).
Proof.
  intros Htok Hnet H1 H2 H3 h get.
  rewrite get_battery_data_eq, Htok, Hnet.
  erewrite (retry_loop_failing_answer _ _ _ r1); [|reflexivity|done].
  simpl (_ <? _)%Z. cbv zeta.
  erewrite (retry_loop_failing_answer _ _ _ r2); [|reflexivity|done].
  simpl (_ <? _)%Z. cbv zeta.
  erewrite (retry_loop_failing_answer _ _ _ r3); [|reflexivity|done].
  simpl (_ <? _)%Z. cbv zeta.
  unfold after_sleep, data_request, surfaced. simpl. rewrite <- !app_assoc.
  by destruct (failure_of r3).
Qed.

Lemma three_failures_raise_the_last_witness :
  let s := logged_in [Response 200 (Some transient_body); Response 200 (Some (JObj ∅));
                      Response 200 None; Response 200 (Some transient_body)] in
  let h := standard_headers (self s) in
  let get := Get data_url data_params h REQUEST_TIMEOUT in
  get_battery_data s =
  (Raise (UpdateFailed "Error fetching data from Byte Watt API" (Some DecodeError)),
   State (self s) [Response 200 (Some transient_body)] h
         (log s ++ [get; Sleep 2; get; Sleep 2; get])).
Proof.
  apply (three_failures_raise_the_last
           (logged_in [Response 200 (Some transient_body); Response 200 (Some (JObj ∅));
                       Response 200 None; Response 200 (Some transient_body)])
           (Response 200 (Some transient_body)) (Response 200 (Some (JObj ∅)))
           (Response 200 None) [Response 200 (Some transient_body)]); reflexivity.
Defined.

(** ** The monitor: where a result comes from *)

Lemma fetch_battery_data_ok_origin (url : string) (params : gmap string json)
    (s s' : state) (v : json) :
  fetch_battery_data url params s = (Ok v, s') →
  (∃ d, v = JObj d ∧ 0 < size d
        ∧ last (log s') = Some (Get url params (headers_obj s) REQUEST_TIMEOUT))
  ∨ (v = JObj ∅ ∧ last (log s') = Some (login_request (self s))
     ∧ headers_obj s' !! "Authorization" = Some (Bearer (access_token (self s')))).
Proof.
  rewrite fetch_battery_data_eq. cbv zeta.
  destruct (net s) as [|[|status body] rest] eqn:Hnet; try discriminate.
  destruct (status =? 401)%Z.
  - destruct (authenticate_frame
                (after_request s (Get url params (headers_obj s) REQUEST_TIMEOUT)))
      as (_ & _ & Hlog & _).
    destruct (authenticate _) as [[[]|e] s2]; [|discriminate].
    intros [= <- <-]. right. cbn [snd log headers_obj self] in *.
    split_and!; [done| |by rewrite lookup_insert_eq].
    rewrite Hlog. apply last_snoc.
  - intros [= Hres <-]. left.
    destruct (attempt_result_ok_shape _ _ Hres) as (d & -> & Hsize).
    exists d. split_and!; try done. apply last_snoc.
Qed.

Lemma retry_loop_ok_origin (attempts : list Z) (s s' : state) (v : json) :
  attempts ≠ [] → (List.last attempts 0 <? MAX_RETRIES - 1)%Z = false →
  retry_loop attempts s = (Ok v, s') →
  (∃ d h, v = JObj d ∧ 0 < size d
          ∧ last (log s') = Some (Get data_url data_params h REQUEST_TIMEOUT))
  ∨ (v = JObj ∅ ∧ (∃ c, last (log s') = Some (login_request c))
     ∧ headers_obj s' !! "Authorization" = Some (Bearer (access_token (self s')))).
Proof.
  revert s. induction attempts as [|attempt rest IH]; intros s Hne Hlast; [done|].
  rewrite retry_loop_cons.
  destruct (fetch_battery_data data_url data_params s) as [[data|err] s1] eqn:Hfetch.
  - apply fetch_battery_data_ok_origin in Hfetch.
    assert (is_not_none data = true) as ->
      by (destruct Hfetch as [(d & -> & _)|(-> & _)]; reflexivity).
    intros [= <- <-].
    destruct Hfetch as [(d & -> & Hsize & Hl)|(-> & Hl & Hh)]; [left|right].
    + by exists d, (headers_obj s).
    + split_and!; try done. by eexists.
  - destruct (attempt <? MAX_RETRIES - 1)%Z eqn:Hatt; [|discriminate].
    destruct rest as [|next rest'].
    + cbn [List.last] in Hlast. congruence.
    + apply IH; [done|]. by destruct rest'.
Qed.

(** X9: what [get_battery_data] returns it returns from an attempt, never
    from the [return {}] below the loop.  A non-empty dict comes right after
    a telemetry request; the empty dict comes only right after a login, that
    is from the 401 branch, with the new token already in the shared
    headers. *)
Theorem get_battery_data_result_origin (s s' : state) (v : json) :
  get_battery_data s = (Ok v, s') →
  (∃ d h, v = JObj d ∧ 0 < size d
          ∧ last (log s') = Some (Get data_url data_params h REQUEST_TIMEOUT))
  ∨ (v = JObj ∅ ∧ (∃ c, last (log s') = Some (login_request c))
     ∧ headers_obj s' !! "Authorization" = Some (Bearer (access_token (self s')))).
Proof.
  rewrite get_battery_data_eq.
  destruct (truthy (access_token (self s))).
  - by apply retry_loop_ok_origin.
  - destruct (authenticate s) as [[[]|e] s1]; [|discriminate].
    by apply retry_loop_ok_origin.
Qed.

Lemma get_battery_data_result_origin_witness :
  let s := logged_in [Response 200 (Some transient_body);
                      Response 200 (Some (JObj {[ "data" := JObj {[ "soc" := JInt 55 ]} ]}))] in
  let v := JObj {[ "soc" := JInt 55 ]} in
  let s' := snd (get_battery_data s) in
  (∃ d h, v = JObj d ∧ 0 < size d
          ∧ last (log s') = Some (Get data_url data_params h REQUEST_TIMEOUT))
  ∨ (v = JObj ∅ ∧ (∃ c, last (log s') = Some (login_request c))
     ∧ headers_obj s' !! "Authorization" = Some (Bearer (access_token (self s')))).
Proof.
  apply (get_battery_data_result_origin
           (logged_in [Response 200 (Some transient_body);
                       Response 200 (Some (JObj {[ "data" := JObj {[ "soc" := JInt 55 ]} ]}))])).
  vm_compute. reflexivity.
Defined.

(** ** The monitor: the scan interval *)

Lemma authenticate_scan_interval (i : Z) (s : state) :
  authenticate (with_scan_interval i s)
  = (fst (authenticate s), with_scan_interval i (snd (authenticate s))).
Proof.
  rewrite !authenticate_eq. cbv zeta. destruct s as [[u p si ts sg tok] n h l].
  unfold with_scan_interval, after_request, login_request, with_token. cbn.
  destruct n as [|[|status [body|]] rest]; try reflexivity.
  destruct (login_token body); reflexivity.
Qed.

Lemma fetch_battery_data_scan_interval (i : Z) (url : string) (params : gmap string json)
    (s : state) :
  fetch_battery_data url params (with_scan_interval i s)
  = (fst (fetch_battery_data url params s),
     with_scan_interval i (snd (fetch_battery_data url params s))).
Proof.
  rewrite !fetch_battery_data_eq. cbv zeta.
  change (net (with_scan_interval i s)) with (net s).
  change (headers_obj (with_scan_interval i s)) with (headers_obj s).
  destruct (net s) as [|[|status body] rest] eqn:Hnet; try reflexivity.
  destruct (status =? 401)%Z; [|reflexivity].
  change (after_request (with_scan_interval i s) ?e)
    with (with_scan_interval i (after_request s e)).
  rewrite authenticate_scan_interval.
  destruct (authenticate _) as [[[]|e] s2]; reflexivity.
Qed.

Lemma retry_loop_scan_interval (i : Z) (attempts : list Z) (s : state) :
  retry_loop attempts (with_scan_interval i s)
  = (fst (retry_loop attempts s), with_scan_interval i (snd (retry_loop attempts s))).
Proof.
  revert s. induction attempts as [|attempt rest IH]; intros s; [reflexivity|].
  rewrite !retry_loop_cons, fetch_battery_data_scan_interval.
  destruct (fetch_battery_data data_url data_params s) as [[data|err] s1]; cbn [fst snd].
  - destruct (is_not_none data); [reflexivity | apply IH].
  - destruct (attempt <? MAX_RETRIES - 1)%Z; [|reflexivity].
    apply (IH (State (self s1) (net s1) (headers_obj s1) (log s1 ++ [Sleep RETRY_DELAY]))).
Qed.

(** X10: the [scan_interval] a monitor is constructed with is stored and
    never used: with another value in its place [get_battery_data] returns
    the same result, sends the same requests, sleeps the same and leaves the
    same token. *)
Theorem scan_interval_is_never_used (i : Z) (s : state) :
  get_battery_data (with_scan_interval i s)
  = (fst (get_battery_data s), with_scan_interval i (snd (get_battery_data s))).
Proof.
  rewrite !get_battery_data_eq.
  change (access_token (self (with_scan_interval i s))) with (access_token (self s)).
  assert (∀ s1, retry_loop [0; 1; 2]%Z
                  (State (self (with_scan_interval i s1)) (net (with_scan_interval i s1))
                         (standard_headers (self (with_scan_interval i s1)))
                         (log (with_scan_interval i s1)))
                = (fst (retry_loop [0; 1; 2]%Z
                          (State (self s1) (net s1) (standard_headers (self s1)) (log s1))),
                   with_scan_interval i
                     (snd (retry_loop [0; 1; 2]%Z
                             (State (self s1) (net s1) (standard_headers (self s1)) (log s1))))))
    as Hloop.
  { intros s1.
    apply (retry_loop_scan_interval i [0; 1; 2]%Z
             (State (self s1) (net s1) (standard_headers (self s1)) (log s1))). }
  destruct (truthy (access_token (self s))).
  - rewrite Hloop. by destruct (retry_loop _ _).
  - rewrite authenticate_scan_interval.
    destruct (authenticate s) as [[[]|e] s1]; cbn [fst snd]; [|reflexivity].
    rewrite Hloop. by destruct (retry_loop _ _).
Qed.

(** ** The sensors: clamped readings *)

Lemma abs_not_negative (f : float) : PrimFloat.ltb (PrimFloat.abs f) 0%float = false.
Proof.
  rewrite ltb_spec, abs_spec.
  change (Prim2SF 0%float) with (S754_zero false).
  by destruct (Prim2SF f) as [[]|[]| |[] m e].
Qed.

Lemma feed_in_not_negative (x : num) : is_negative (json_of_num (py_abs (min0 x))) = false.
Proof.
  destruct x as [z|f]; cbn [min0].
  - destruct (0 <? z)%Z; cbn; apply Z.ltb_ge; lia.
  - destruct (PrimFloat.ltb 0%float f); cbn; [done | apply abs_not_negative].
Qed.

Lemma consumption_not_negative (x : num) : is_negative (json_of_num (max0 x)) = false.
Proof.
  destruct x as [z|f]; cbn [max0].
  - destruct (z <? 0)%Z eqn:Hz; cbn; [done|exact Hz].
  - destruct (PrimFloat.ltb f 0%float) eqn:Hf; cbn; [done|exact Hf].
Qed.

Lemma not_both_positive (x : num) :
  is_positive (json_of_num (py_abs (min0 x))) && is_positive (json_of_num (max0 x)) = false.
Proof.
  destruct x as [z|f]; cbn [min0 max0].
  - destruct (0 <? z)%Z eqn:Hz; [done|].
    apply andb_false_iff. right.
    destruct (z <? 0)%Z; cbn; [done|exact Hz].
  - destruct (PrimFloat.ltb 0%float f) eqn:Hf; [done|].
    apply andb_false_iff. right.
    destruct (PrimFloat.ltb f 0%float); cbn; [done|exact Hf].
Qed.

Lemma result_map_ok_inv {A B} (g : A → B) (r : result A) (v : B) :
  result_map g r = Ok v → ∃ x, r = Ok x ∧ v = g x.
Proof. destruct r as [x|e]; [|discriminate]. intros [= <-]. by exists x. Qed.

Section ClampedReadings.

Variable float_of_str : string -> result float.

(** X11: every derived reading other than PV generation is never negative,
    whatever the snapshot holds; and of the feed-in and the consumption of a
    phase, or of the grid, at most one is positive. *)
Theorem clamped_readings (data : gmap string json) :
  (∀ name f v,
      (name, f) ∈ derived float_of_str → name ≠ "PV Generation" →
      f data = Ok v → is_negative v = false)
  ∧ (∀ key a b,
      clamp_negative float_of_str key data = Ok a →
      clamp_positive float_of_str key data = Ok b →
      is_positive a && is_positive b = false)
  ∧ (∀ a b,
      grid_feed_in float_of_str data = Ok a →
      grid_consumption float_of_str data = Ok b →
      is_positive a && is_positive b = false).
Proof.
  split_and!.
  - intros name f v Hin Hname. unfold derived in Hin.
    repeat (apply elem_of_cons in Hin as [[= -> ->]|Hin];
            [try done;
             unfold battery_charging, battery_discharging, grid_feed_in, grid_consumption,
               clamp_negative, clamp_positive; cbv beta;
             intros (x & _ & ->)%result_map_ok_inv;
             first [apply feed_in_not_negative | apply consumption_not_negative]|]).
    by apply elem_of_nil in Hin.
  - intros key a b. unfold clamp_negative, clamp_positive.
    intros (x & Hx & ->)%result_map_ok_inv (y & Hy & ->)%result_map_ok_inv.
    rewrite Hx in Hy. injection Hy as <-. apply (not_both_positive (NFloat x)).
  - intros a b. unfold grid_feed_in, grid_consumption.
    intros (x & Hx & ->)%result_map_ok_inv (y & Hy & ->)%result_map_ok_inv.
    rewrite Hx in Hy. injection Hy as <-. apply not_both_positive.
Qed.

End ClampedReadings.

(** ** The sensors: the entity *)

Lemma unique_id_chars (name : string) :
  replace_char " " "_" (py_lower name)
  = string_of_list_ascii (map unique_char (list_ascii_of_string name)).
Proof. induction name as [|c name IH]; [done|]. cbn. by rewrite IH. Qed.

Lemma unique_char_shape (c : ascii) :
  is_space (unique_char c) = false ∧ is_capital (unique_char c) = false
  ∧ unique_char (unique_char c) = unique_char c.
Proof. by destruct c as [[] [] [] [] [] [] [] []]. Qed.

(** X12: for a name whose characters are code points below 256 (Latin-1,
    which covers the ASCII names that [async_setup_entry] uses), the unique
    id of a sensor is the name with every character lowered and every space
    turned into an underscore: it has the length of the name, holds no space
    and no ASCII capital letter, and is its own unique id.  Names with
    characters beyond U+00FF are outside this statement. *)
Theorem unique_id_shape (name : string) (formula : gmap string json → result json)
    (enabled : bool) :
  let id := _attr_unique_id (BatterySensor_init name formula enabled) in
  String.length id = String.length name
  ∧ forallb (fun c => negb (is_space c) && negb (is_capital c)) (list_ascii_of_string id) = true
  ∧ _attr_unique_id (BatterySensor_init id formula enabled) = id
  ∧ _attr_unique_id (create_hidden name formula) = id.
Proof.
  cbn [_attr_unique_id BatterySensor_init create_hidden]. split_and!; [| | |done].
  - induction name as [|c name IH]; [done|]. cbn. by rewrite IH.
  - rewrite unique_id_chars, list_ascii_of_string_of_list_ascii.
    induction (list_ascii_of_string name) as [|c l IH]; [done|].
    cbn [map forallb]. destruct (unique_char_shape c) as (-> & -> & _). exact IH.
  - rewrite !unique_id_chars, list_ascii_of_string_of_list_ascii. f_equal.
    induction (list_ascii_of_string name) as [|c l IH]; [done|].
    cbn [map]. destruct (unique_char_shape c) as (_ & _ & ->). by rewrite IH.
Qed.

Section Entities.

Variable float_of_str : string -> result float.

(** X13: the nineteen sensors that [async_setup_entry] creates are the
    named formulas of the sensor list, in its order; their unique ids are
    pairwise distinct; and the ones created hidden are the four MPPT
    trackers. *)
Theorem async_setup_entry_entities :
  map (fun e => (_name e, _formula e)) (async_setup_entry float_of_str) = sensors float_of_str
  ∧ NoDup (map _attr_unique_id (async_setup_entry float_of_str))
  ∧ map _name (List.filter (fun e => negb (_attr_entity_registry_enabled_default e))
                           (async_setup_entry float_of_str))
    = ["MPPT Tracker String 1"; "MPPT Tracker String 2";
       "MPPT Tracker String 3"; "MPPT Tracker String 4"].
Proof.
  split_and!; [reflexivity| |reflexivity].
  apply (bool_decide_unpack _). by vm_compute.
Qed.

End Entities.

(** ** From the monitor to the sensors *)

Lemma get_battery_data_relogin (s : state) (body : option json) (status : Z)
    (login tok : json) (more : list http_result) :
  truthy (access_token (self s)) = true →
  net s = Response 401 body :: Response status (Some login) :: more →
  login_token login = Ok tok →
  fst (get_battery_data s) = Ok (JObj ∅).
Proof.
  intros Htok Hnet Hlogin.
  rewrite get_battery_data_eq, Htok, retry_loop_cons, fetch_battery_data_eq.
  cbn [net self headers_obj log]. rewrite Hnet. cbv zeta.
  change (401 =? 401)%Z with true. cbv iota.
  by rewrite (authenticate_ok _ status login tok more).
Qed.

(** X14: a refresh whose first telemetry request is answered 401 and whose
    login then succeeds is reported by the coordinator as a success with the
    empty dict as data, and on that data every sensor of
    [async_setup_entry] reads [None], whatever its formula. *)
Theorem sensors_read_none_after_relogin (float_of_str : string → result float)
    (s : state) (body : option json) (status : Z) (login tok : json)
    (more : list http_result) :
  truthy (access_token (self s)) = true →
  net s = Response 401 body :: Response status (Some login) :: more →
  login_token login = Ok tok →
  ∃ data,
    fst (_async_update_data s) = Ok data
    ∧ ∀ e, e ∈ async_setup_entry float_of_str → native_value (_formula e) data = Ok JNull.
Proof.
  intros Htok Hnet Hlogin. exists (JObj ∅). split; [|done].
  pose proof (get_battery_data_relogin s body status login tok more Htok Hnet Hlogin) as Hget.
  unfold _async_update_data, try_except.
  destruct (get_battery_data s) as [[data|e] s1]; cbn [fst] in *; [done|discriminate].
Qed.

Lemma sensors_read_none_after_relogin_witness :
  ∃ data,
    fst (_async_update_data
           (logged_in [Response 401 None; Response 200 (Some (login_body "new"))])) = Ok data
    ∧ ∀ e, e ∈ async_setup_entry (fun _ => Raise ValueError) →
           native_value (_formula e) data = Ok JNull.
Proof.
  apply (sensors_read_none_after_relogin (fun _ => Raise ValueError)
           (logged_in [Response 401 None; Response 200 (Some (login_body "new"))])
           None 200 (login_body "new") (JStr "new") []); reflexivity.
Defined.

(** ** The configuration flow (config_flow.py) *)

Lemma validate_input_eq (clock : Z) (data : user_input) (s : state) :
  let c := __init__ clock (input_username data) (input_password data)
                    (input_scan_interval data) in
  validate_input clock data s
  = match login_answer (net s) with
    | Ok tok =>
        (inl {[ "title" := "Neovolt Battery (" +:+ input_username data +:+ ")" ]},
         State (with_token c tok) (tl (net s)) (headers_obj s) (log s ++ [login_request c]))
    | Raise cause =>
        (inr (Uncaught (auth_error cause)),
         State c (tl (net s)) (headers_obj s) (log s ++ [login_request c]))
    end.
Proof.
  intros c. unfold validate_input. fold c. rewrite authenticate_eq. cbv zeta.
  unfold after_request, login_answer. cbn [self net headers_obj log].
  destruct (net s) as [|[|status [body|]] rest]; try reflexivity.
  destruct (login_token body); reflexivity.
Qed.

(** X15: [validate_input] constructs a monitor from the input and logs in
    once.  When the answer carries a token it returns the title "Neovolt
    Battery (<username>)"; otherwise the [UpdateFailed] of the login leaves
    it uncaught.  It never raises [CannotConnect] or [InvalidAuth]: its
    handlers are for exceptions of the requests library, which the login
    never lets through. *)
Theorem validate_input_outcome (clock : Z) (data : user_input) (s : state) :
  let c := __init__ clock (input_username data) (input_password data)
                    (input_scan_interval data) in
  let sent := log s ++ [login_request c] in
  validate_input clock data s
  = match login_answer (net s) with
    | Ok tok =>
        (inl {[ "title" := "Neovolt Battery (" +:+ input_username data +:+ ")" ]},
         State (with_token c tok) (tl (net s)) (headers_obj s) sent)
    | Raise cause =>
        (inr (Uncaught (UpdateFailed "Error authenticating with Byte Watt API" (Some cause))),
         State c (tl (net s)) (headers_obj s) sent)
    end
  ∧ (∀ cause, fst (validate_input clock data s) ≠ inr (CannotConnect cause)
              ∧ fst (validate_input clock data s) ≠ inr (InvalidAuth cause)).
Proof.
  intros c sent. split; [apply validate_input_eq|].
  intros cause. rewrite validate_input_eq. by destruct (login_answer (net s)).
Qed.

(** X16: [async_step_user] without input shows the form, with no errors and
    without touching the network.  With input it creates the entry, titled
    by [validate_input] and holding the input, when the login answer carries
    a token, and otherwise lets the login's [UpdateFailed] escape: the form
    is never shown again with an error, "cannot_connect" and "invalid_auth"
    are never reported.  [async_step_import] is the step with input. *)
Theorem async_step_user_outcome (clock : Z) (s : state) :
  async_step_user clock None s = (inl (async_show_form "user" ∅), s)
  ∧ (∀ data,
      fst (async_step_user clock (Some data) s)
      = match login_answer (net s) with
        | Ok _ =>
            inl (async_create_entry ("Neovolt Battery (" +:+ input_username data +:+ ")") data)
        | Raise cause =>
            inr (Uncaught (UpdateFailed "Error authenticating with Byte Watt API"
                             (Some cause)))
        end
      ∧ snd (async_step_user clock (Some data) s) = snd (validate_input clock data s)
      ∧ async_step_import clock data s = async_step_user clock (Some data) s)
  ∧ (∀ input step_id errors,
      fst (async_step_user clock input s) = inl (async_show_form step_id errors) →
      input = None ∧ errors = ∅).
Proof.
  assert (∀ data,
            async_step_user clock (Some data) s
            = (match login_answer (net s) with
               | Ok _ =>
                   inl (async_create_entry
                          ("Neovolt Battery (" +:+ input_username data +:+ ")") data)
               | Raise cause => inr (Uncaught (auth_error cause))
               end, snd (validate_input clock data s))) as Hsome.
  { intros data. unfold async_step_user.
    rewrite validate_input_eq.
    destruct (login_answer (net s)); [|reflexivity].
    cbn [snd]. by rewrite lookup_singleton_eq. }
  split_and!.
  - reflexivity.
  - intros data. split_and!; [by rewrite Hsome..|reflexivity].
  - intros [data|] step_id errors.
    + rewrite Hsome. cbn [fst]. by destruct (login_answer (net s)).
    + by intros [= <- <-].
Qed.

(** ** The signature: the text that is hashed *)

Lemma encode_inj (s1 s2 : string) : encode s1 = encode s2 → s1 = s2.
Proof.
  revert s2. induction s1 as [|c1 s1 IH]; intros [|c2 s2]; try discriminate; [done|].
  unfold encode. cbn [list_ascii_of_string map]. intros [= Hc Hs].
  apply N2Z.inj in Hc.
  rewrite <- (ascii_N_embedding c1), <- (ascii_N_embedding c2), Hc.
  f_equal. by apply IH.
Qed.

Lemma append_inv_head (p s1 s2 : string) : p +:+ s1 = p +:+ s2 → s1 = s2.
Proof. induction p as [|c p IH]; [done|]. intros [= H]. by apply IH. Qed.

Lemma py_str_int_inj (t1 t2 : Z) : py_str_int t1 = py_str_int t2 → t1 = t2.
Proof.
  intros H. pose proof (py_str_int_reads_back t1) as H1.
  rewrite H, py_str_int_reads_back in H1. by injection H1.
Qed.

(** X17: what [generate_auth_signature] hashes is the four secrets followed
    by the decimal timestamp.  Every byte of it is ASCII, so [encode] yields
    one byte per character, and the timestamp can be read back from it: two
    timestamps never share the text that is hashed. *)
Theorem signed_bytes_determine_timestamp (t1 t2 : Z) :
  generate_auth_signature t1 = "al8e4s" +:+ SHA512.hexdigest (signed_bytes t1) +:+ "ui893ed"
  ∧ Forall (fun b => (0 ≤ b < 128)%Z) (signed_bytes t1)
  ∧ length (signed_bytes t1) = 51 + String.length (py_str_int t1)
  ∧ (signed_bytes t1 = signed_bytes t2 → t1 = t2).
Proof.
  split_and!.
  - reflexivity.
  - pose proof (auth_string_ascii t1) as Hascii. unfold signed_bytes, encode.
    induction (list_ascii_of_string _) as [|c l IH]; [by apply Forall_nil|].
    cbn [forallb] in Hascii. apply andb_true_iff in Hascii as [Hc Hl].
    cbn [map]. apply Forall_cons. split; [|by apply IH].
    unfold is_ascii in Hc. apply N.ltb_lt in Hc. lia.
  - unfold signed_bytes, encode. rewrite length_map.
    assert (∀ s, length (list_ascii_of_string s) = String.length s) as Hlen
      by (intros s; induction s as [|c s IH]; [done|]; cbn; by rewrite IH).
    by rewrite Hlen, string_length_append.
  - intros H. apply encode_inj, append_inv_head in H. by apply py_str_int_inj.
Qed.
